(** * LLM-Chat: a shallow embedding of the chat relay and its client

    The development follows the two programs of the repository:

    - [app.py], the FastAPI orchestrator: session registry, history
      endpoint, streaming chat endpoint, session deletion;
    - [UI.py], the Gradio client: session list handling and the
      progressive rendering of a streamed reply.

    [app.py] reaches the message history, the history-aware runnable and
    the chain through the module-level names [SQLChatMessageHistory],
    [RunnableWithMessageHistory] and [build_chain], so the endpoints below
    take the runnable and the chain as arguments. The message history is
    the one the repository defines in [tests/test_chat.py]
    ([FakeSQLChatMessageHistory]). Two runnables are embedded: the class
    [RunnableWithMessageHistory] that [app.py] imports, which records an
    exchange once its stream has ended normally, and the double
    [FakeHistoryWrapper] of [tests/test_chat.py], which records the
    question before it streams. *)

From Stdlib Require Import String Ascii ZArith Lia Bool.
From Stdlib Require Import DecimalString.
From stdpp Require Import base gmap strings list.

Open Scope string_scope.

(** ** Python strings

    A Python [str] is modelled by a Rocq [string]; a character stands for
    the code point with the same number (0..255). *)

Module PyStr.

(** [str.isspace] on one code point below 256: TAB..CR, FS..US, SPACE,
    NEL and NBSP are the white-space characters [str.strip()] removes. *)
Definition isspace (c : ascii) : bool :=
  let n := nat_of_ascii c in
  ((9 <=? n)%nat && (n <=? 13)%nat)
  || ((28 <=? n)%nat && (n <=? 32)%nat)
  || (n =? 133)%nat
  || (n =? 160)%nat.

(** [s.lstrip()] *)
Fixpoint lstrip (s : string) : string :=
  match s with
  | EmptyString => EmptyString
  | String c s' => if isspace c then lstrip s' else s
  end.

(** [s.rstrip()]: a character is kept when it is not white space or when
    something is kept to its right. *)
Fixpoint rstrip (s : string) : string :=
  match s with
  | EmptyString => EmptyString
  | String c s' =>
      match rstrip s' with
      | EmptyString => if isspace c then EmptyString else String c EmptyString
      | String _ _ as r => String c r
      end
  end.

(** [s.strip()] *)
Definition strip (s : string) : string := rstrip (lstrip s).

(** Python truthiness of a [str]: [not s] holds exactly for [""]. *)
Definition truthy (s : string) : bool :=
  match s with
  | EmptyString => false
  | String _ _ => true
  end.

(** [s or d] *)
Definition or_default (s d : string) : string :=
  if truthy s then s else d.

(** [all(c.isspace() for c in s)] *)
Fixpoint all_space (s : string) : bool :=
  match s with
  | EmptyString => true
  | String c s' => isspace c && all_space s'
  end.

(** [str(n)] for an integer. *)
Definition str_of_Z (n : Z) : string := NilZero.string_of_int (Z.to_int n).

(** ["".join(l)] *)
Fixpoint join (l : list string) : string :=
  match l with
  | [] => ""
  | s :: l' => s ++ join l'
  end.

End PyStr.

(** ** Messages and exceptions *)

(** The message classes [get_history] tells apart with [isinstance]; any
    other class of stored message is [OtherMessage]. *)
Inductive message_class :=
  | AIMessage
  | HumanMessage
  | SystemMessage
  | OtherMessage (cls : string).

Record message := Message { msg_class : message_class; content : string }.

(** A raised Python [Exception]: [type(e).__name__] and [str(e)]. *)
Record exn := Exn { exn_type : string; exn_str : string }.

(** ** The history store of the repository ([FakeSQLChatMessageHistory])

    The class attribute [_STORE] is one dictionary shared by all handles;
    a handle is its [_sid]. *)

Module History.

Abbreviation store := (gmap string (list message)).

(** [dict.setdefault(k, [])], used for its effect only. *)
Definition setdefault (k : string) (s : store) : store :=
  match s !! k with
  | Some _ => s
  | None => <[k := []]> s
  end.

(** [self._sid = session_id or "default"] *)
Definition handle_sid (session_id : string) : string :=
  PyStr.or_default session_id "default".

(** [FakeSQLChatMessageHistory(session_id=..., connection=...)]: the handle
    and the store after [setdefault]. *)
Definition FakeSQLChatMessageHistory (session_id : string) (s : store)
  : string * store :=
  (handle_sid session_id, setdefault (handle_sid session_id) s).

(** [aget_messages]: a copy of the session's list, [[]] for a missing key. *)
Definition aget_messages (h : string) (s : store) : list message :=
  default [] (s !! h).

(** [aadd_message]: [_STORE[self._sid].append(message)]; [None] is the
    [KeyError] of the subscript on a missing key. *)
Definition aadd_message (h : string) (m : message) (s : store) : option store :=
  match s !! h with
  | Some l => Some (<[h := (l ++ [m])%list]> s)
  | None => None
  end.

(** [aclear]: [_STORE[self._sid].clear()]; [None] is the [KeyError]. *)
Definition aclear (h : string) (s : store) : option store :=
  match s !! h with
  | Some _ => Some (<[h := []]> s)
  | None => None
  end.

End History.

(** ** The orchestrator ([app.py]) *)

Module Backend.

Import History.

(** The [inputs] dictionary built by [chat]. *)
Record chat_inputs := ChatInputs { system_prompt : string; input : string }.

(** The server's world: the rows of table [chat_sessions], the history
    store, and two observation counters for the completion engine (calls of
    [build_chain()] and calls of the chain's [astream]). *)
Record state := State {
  chat_sessions : list string;
  STORE : store;
  chains_built : nat;
  engine_calls : list (string * chat_inputs)
}.

Definition set_STORE (s : store) (st : state) : state :=
  {| chat_sessions := chat_sessions st; STORE := s;
     chains_built := chains_built st; engine_calls := engine_calls st |}.

Definition set_chat_sessions (l : list string) (st : state) : state :=
  {| chat_sessions := l; STORE := STORE st;
     chains_built := chains_built st; engine_calls := engine_calls st |}.

Definition note_build (st : state) : state :=
  {| chat_sessions := chat_sessions st; STORE := STORE st;
     chains_built := S (chains_built st); engine_calls := engine_calls st |}.

Definition note_call (sid : string) (i : chat_inputs) (st : state) : state :=
  {| chat_sessions := chat_sessions st; STORE := STORE st;
     chains_built := chains_built st;
     engine_calls := (engine_calls st ++ [(sid, i)])%list |}.

(** A generator run to its end: the values it yielded, each with the state
    of the world at the moment of the [yield], the state when it stopped,
    and how it stopped ([None]: it returned, [Some e]: it raised [e]). *)
Record run (A : Type) := Run {
  yields : list (A * state);
  final : state;
  outcome : option exn
}.
Arguments Run {A} _ _ _.
Arguments yields {A} _.
Arguments final {A} _.
Arguments outcome {A} _.

(** The values a run yielded, in order. *)
Definition fragments {A} (r : run A) : list A := (yields r).*1.

(** What the provider's stream does for one request: the text chunks it
    produces, then a normal end or a raised exception. *)
Record provider_stream := ProviderStream {
  chunks : list string;
  failure : option exn
}.

(** A chain: [chain.astream(inputs, config=config)]. *)
Definition chain := chat_inputs -> string -> provider_stream.

(** [FakeStreamChain.astream] *)
Definition FakeStreamChain : chain :=
  fun inputs _ => ProviderStream ["HEL"; "LO: "; input inputs] None.

(** A streamed item as [gen] sees it: a [str], or an object with or
    without a [content] attribute. *)
Inductive chunk :=
  | ChunkStr (s : string)
  | ChunkObj (content_attr : option string).

(** [RunnableWithMessageHistory(chain, factory, ...).astream(inputs, config)]
    with [config["configurable"]["session_id"]] as third argument. *)
Definition runnable_with_history := chain -> chat_inputs -> string -> state -> run chunk.

Definition KeyError (k : string) : exn := Exn "KeyError" ("'" ++ k ++ "'").

(** The loop of [FakeHistoryWrapper.astream]:
    [full_response += chunk; yield chunk]. The store does not change while
    the loop runs, so every yield sees [st]. *)
Fixpoint wrapper_loop (st : state) (cs : list string) (full_response : string)
  : list (chunk * state) * string :=
  match cs with
  | [] => ([], full_response)
  | c :: cs' =>
      let full_response := full_response ++ c in
      let '(ys, r) := wrapper_loop st cs' full_response in
      ((ChunkStr c, st) :: ys, r)
  end.

(** [FakeHistoryWrapper.astream]: the history factory is the lambda of
    [chat], [inputs] always has the key ["input"]. *)
Definition FakeHistoryWrapper : runnable_with_history :=
  fun underlying inputs sid st =>
    let '(history, s1) := FakeSQLChatMessageHistory sid (STORE st) in
    match aadd_message history (Message HumanMessage (input inputs)) s1 with
    | None => Run [] (set_STORE s1 st) (Some (KeyError history))
    | Some s2 =>
        let st2 := note_call sid inputs (set_STORE s2 st) in
        let stream := underlying inputs sid in
        let '(ys, full_response) := wrapper_loop st2 (chunks stream) "" in
        match failure stream with
        | Some e => Run ys st2 (Some e)
        | None =>
            match aadd_message history (Message AIMessage full_response) s2 with
            | None => Run ys st2 (Some (KeyError history))
            | Some s3 => Run ys (set_STORE s3 st2) None
            end
        end
    end.

(** Modelled from the spec: [RunnableWithMessageHistory], the class of
    [langchain_core] that [chat] builds around the chain, is not among the
    sources. It takes the session's history handle from the factory, streams
    the chain (whose chunks are message chunks, read by [gen] through their
    [content]), and once streaming has ended appends the user's message and
    the accumulated reply to the history, in that order (user first, then
    assistant). The class does this when the run ends; a run that raises
    does not get there, so after a failed stream nothing is appended. *)
Definition RunnableWithMessageHistory : runnable_with_history :=
  fun underlying inputs sid st =>
    let '(history, s1) := FakeSQLChatMessageHistory sid (STORE st) in
    let st1 := note_call sid inputs (set_STORE s1 st) in
    let stream := underlying inputs sid in
    let ys := (fun c => (ChunkObj (Some c), st1)) <$> chunks stream in
    match failure stream with
    | Some e => Run ys st1 (Some e)
    | None =>
        let full_response := PyStr.join (chunks stream) in
        match aadd_message history (Message HumanMessage (input inputs)) s1 with
        | None => Run ys st1 (Some (KeyError history))
        | Some s2 =>
            match aadd_message history (Message AIMessage full_response) s2 with
            | None => Run ys (set_STORE s2 st1) (Some (KeyError history))
            | Some s3 => Run ys (set_STORE s3 st1) None
            end
        end
    end.

(** *** Endpoints *)

Definition SYSTEM_PROMPT : string :=
  "You are a helpful assistant that answers questions from the user.".

(** Request body of [POST /chat] ([session_id] defaults to ["1"]). *)
Record ChatIn := { session_id : string; user_message : string }.

(** One entry of [HistoryOut.messages]: the dictionary
    [{"role": role, "content": m.content}]. *)
Record msg_out := MsgOut { role : string; text : string }.

Record HistoryOut := { out_session_id : string; messages : list msg_out }.

(** What [chat] hands back to the framework: it raises [HTTPException], or
    it returns a [StreamingResponse] whose body is the suspended generator
    [gen()], of which nothing has run yet. *)
Inductive chat_response :=
  | HTTPException (status_code : Z) (detail : string)
  | StreamingResponse (body : state -> run string).

(** The dictionary [{"status": ..., "session_id": ...}] of the deletion. *)
Record cleared := Cleared { status : string; cleared_session_id : string }.

(** [POST /session], returning the value under ["session_id"]; the fresh
    [uuid4] is an input. A second row with the same primary key is refused
    by the table ([None]). *)
Definition create_new_session (new_session_id : string) (st : state)
  : option (string * state) :=
  if bool_decide (new_session_id ∈ chat_sessions st) then None
  else Some (new_session_id,
             set_chat_sessions (chat_sessions st ++ [new_session_id])%list st).

(** [GET /sessions], returning the value under ["sessions"]. The query has
    no [ORDER BY]: the rows are all there, their order in the answer is the
    database's choice, and the order of the list below stands for no
    more. *)
Definition list_all_sessions (st : state) : list string * state :=
  (chat_sessions st, st).

(** The [isinstance] cascade of [get_history]. *)
Definition role_of (m : message) : string :=
  match msg_class m with
  | AIMessage => "assistant"
  | HumanMessage => "user"
  | SystemMessage => "system"
  | OtherMessage _ => "unknown"
  end.

(** [GET /session/{session_id}/history] *)
Definition get_history (session_id : string) (st : state) : HistoryOut * state :=
  let '(history, s1) := FakeSQLChatMessageHistory session_id (STORE st) in
  let messages_raw := aget_messages history s1 in
  let msgs := map (fun m => MsgOut (role_of m) (content m)) messages_raw in
  ({| out_session_id := session_id; messages := msgs |}, set_STORE s1 st).

(** [s = chunk if isinstance(chunk, str) else getattr(chunk, "content", "")] *)
Definition chunk_text (c : chunk) : string :=
  match c with
  | ChunkStr s => s
  | ChunkObj o => default "" o
  end.

(** The [async for] of [gen]: empty texts are skipped, the others are
    yielded as they come. *)
Fixpoint gen_loop (ys : list (chunk * state)) : list (string * state) :=
  match ys with
  | [] => []
  | (c, st) :: ys' =>
      let s := chunk_text c in
      if PyStr.truthy s then (s, st) :: gen_loop ys' else gen_loop ys'
  end.

(** The fragment of the [except] branch of [gen]. *)
Definition provider_failed (e : exn) : string :=
  String "010" (String "010" "[ERROR] Provider failed: ")
    ++ exn_type e ++ ": " ++ exn_str e.

(** [gen()] over the stream of the history-aware runnable: the [try] body
    relays, the [except Exception] branch yields one more fragment and the
    generator returns (the line it writes to the log is left out). *)
Definition gen (stream : run chunk) : run string :=
  match outcome stream with
  | None => Run (gen_loop (yields stream)) (final stream) None
  | Some e =>
      Run (gen_loop (yields stream) ++ [(provider_failed e, final stream)])%list
          (final stream) None
  end.

(** [POST /chat] *)
Definition chat (RunnableWithMessageHistory : runnable_with_history)
    (build_chain : chain) (body : ChatIn) (st : state) : chat_response * state :=
  let sid := PyStr.strip (session_id body) in
  let user_msg := PyStr.strip (user_message body) in
  if negb (PyStr.truthy user_msg) then
    (HTTPException 400 "user_message cannot be empty.", st)
  else
    let st1 := note_build st in
    let inputs := ChatInputs SYSTEM_PROMPT user_msg in
    (StreamingResponse
       (fun st' => gen (RunnableWithMessageHistory build_chain inputs sid st')),
     st1).

(** [DELETE /session/{session_id}]; [None] when [aclear] raises. *)
Definition clear_session_history (session_id : string) (st : state)
  : option (cleared * state) :=
  let '(history, s1) := FakeSQLChatMessageHistory session_id (STORE st) in
  match aclear history s1 with
  | None => None
  | Some s2 =>
      let rows := filter (fun c => c <> session_id) (chat_sessions st) in
      Some (Cleared "cleared" session_id,
            set_chat_sessions rows (set_STORE s2 st))
  end.

(** *** The framework around an endpoint *)

(** What the HTTP client of [POST /chat] observes: the status, and for a
    streamed body the run of the generator to its end. *)
Inductive chat_reply :=
  | Rejected (status_code : Z) (detail : string)
  | Streamed (status_code : Z) (r : run string).

(** One whole [POST /chat] exchange, the body streamed to completion. *)
Definition post_chat (w : runnable_with_history) (c : chain) (body : ChatIn)
    (st : state) : chat_reply * state :=
  match chat w c body st with
  | (StreamingResponse g, st1) => let r := g st1 in (Streamed 200 r, final r)
  | (HTTPException code d, st1) => (Rejected code d, st1)
  end.

(** The messages recorded for a session, as [GET .../history] reads them. *)
Definition history_of (session_id : string) (st : state) : list message :=
  aget_messages (handle_sid session_id) (STORE st).

(** *** Reading and writing a session's log *)

(** The [messages] list a client gets from [GET /session/{id}/history]. *)
Definition read_history (session_id : string) (st : state) : list msg_out :=
  messages (get_history session_id st).1.

(** One append to a session's log, the way the history-aware runnable does
    it: a handle from the factory, then [aadd_message]. *)
Definition append (session_id : string) (m : message) (st : state) : option state :=
  let '(history, s1) := FakeSQLChatMessageHistory session_id (STORE st) in
  match aadd_message history m s1 with
  | Some s2 => Some (set_STORE s2 st)
  | None => None
  end.

(** A sequence of appends, in order. *)
Fixpoint append_all (session_id : string) (ms : list message) (st : state)
  : option state :=
  match ms with
  | [] => Some st
  | m :: ms' =>
      match append session_id m st with
      | Some st' => append_all session_id ms' st'
      | None => None
      end
  end.

(** The three role tags of the data model, the text of each tag, and the
    message class that carries it (the runnable stores the user's input as a
    [HumanMessage] and the reply as an [AIMessage]). *)
Inductive role_tag :=
  | user
  | assistant
  | system.

Definition role_name (r : role_tag) : string :=
  match r with
  | user => "user"
  | assistant => "assistant"
  | system => "system"
  end.

Definition message_with_role (rc : role_tag * string) : message :=
  match rc.1 with
  | user => Message HumanMessage rc.2
  | assistant => Message AIMessage rc.2
  | system => Message SystemMessage rc.2
  end.

Definition tagged (rc : role_tag * string) : msg_out :=
  MsgOut (role_name rc.1) rc.2.

(** The texts of the three role tags. *)
Definition spec_roles : list string := role_name <$> [user; assistant; system].

(** A server that has just started: no rows, an empty [_STORE]. *)
Definition fresh : state := State [] ∅ 0 [].

End Backend.

(** ** The client ([UI.py]) *)

Module UI.

(** An [httpx] call: it raises, or it returns a response with a status
    code and a body. *)
Inductive http_reply (B : Type) :=
  | HttpRaised (e : exn)
  | HttpResponse (status_code : Z) (body : B).
Arguments HttpRaised {B} _.
Arguments HttpResponse {B} _ _.

(** The body of [GET /sessions] as the client inspects it:
    [response.json()] fails, or lacks the key ["sessions"], or has it. *)
Inductive sessions_body :=
  | SessionsNotJSON
  | SessionsNoKey
  | SessionsKey (l : list string).

(** The body of [POST /session], likewise for the key ["session_id"]. *)
Inductive session_body :=
  | SessionNotJSON
  | SessionNoKey
  | SessionKey (sid : string).

(** [response.raise_for_status()] passes the 2xx codes. *)
Definition is_success (code : Z) : bool := (200 <=? code)%Z && (code <=? 299)%Z.

(** The exception of [raise_for_status()]. Its text, which in [httpx] also
    names the kind of error and the URL, is cut down to the status code;
    no handler reads it. *)
Definition HTTPStatusError (code : Z) : exn :=
  Exn "HTTPStatusError" (PyStr.str_of_Z code).

(** [get_available_sessions()] *)
Definition get_available_sessions (r : http_reply sessions_body) : list string :=
  match r with
  | HttpResponse code (SessionsKey l) =>
      if (code =? 200)%Z then l else ["default"]
  | HttpResponse _ _ => ["default"]
  | HttpRaised _ => ["default"]
  end.

(** [create_session()]: [inl] is the exception that leaves the function. *)
Definition create_session (r : http_reply session_body) : exn + string :=
  match r with
  | HttpRaised e => inl e
  | HttpResponse code b =>
      if is_success code then
        match b with
        | SessionKey sid => inr sid
        | SessionNoKey => inl (Exn "KeyError" "'session_id'")
        | SessionNotJSON => inl (Exn "JSONDecodeError" "")
        end
      else inl (HTTPStatusError code)
  end.

(** The reply to the streamed [POST /chat]: the connection fails, or a
    response arrives whose body is delivered by [iter_text()] as [chunks],
    after which the body ends or the transport raises. [text] is what
    [e.response.text] gives in the [HTTPStatusError] branch ([inl]: reading
    it raises). *)
Inductive stream_reply :=
  | StreamRaised (e : exn)
  | StreamResponse (status_code : Z) (text : exn + string)
      (chunks : list string) (broken : option exn).

(** A generator of the client run to its end: what it yielded, and the
    exception that left it, if any. *)
Record ui_run (A : Type) := UiRun { shown : list A; ui_outcome : option exn }.
Arguments UiRun {A} _ _.
Arguments shown {A} _.
Arguments ui_outcome {A} _.

(** [combined += chunk; yield combined] *)
Fixpoint combine_loop (combined : string) (chunks : list string) : list string :=
  match chunks with
  | [] => []
  | chunk :: rest =>
      let combined := combined ++ chunk in
      combined :: combine_loop combined rest
  end.

(** The text of the [except Exception] branch of
    [get_streaming_response]. *)
Definition network_error (e : exn) : string :=
  "[ERROR] Network/client error: " ++ exn_str e.

(** The text of its [except httpx.HTTPStatusError] branch. *)
Definition backend_error (code : Z) (t : string) : string :=
  "[ERROR] Backend returned " ++ PyStr.str_of_Z code ++ ": " ++ t.

(** [get_streaming_response(session_id, user_message)]; [post] is the
    backend behind [client.stream("POST", .../chat, json=payload)]. *)
Definition get_streaming_response (post : string -> string -> stream_reply)
    (session_id user_message : string) : ui_run string :=
  match post (PyStr.or_default session_id "default") user_message with
  | StreamRaised e =>
      UiRun [network_error e] None
  | StreamResponse code text chunks broken =>
      if is_success code then
        match broken with
        | None => UiRun (combine_loop "" chunks) None
        | Some e =>
            UiRun (combine_loop "" chunks ++ [network_error e])%list None
        end
      else
        match text with
        | inr t => UiRun [backend_error code t] None
        | inl e => UiRun [] (Some e)
        end
  end.

(** The chatbot value: a list of [[user, assistant]] pairs. *)
Abbreviation chat_pairs := (list (string * string)).

(** [gr.update()] leaves a component as it is; a value replaces it. *)
Inductive update (A : Type) :=
  | NoChange
  | SetTo (a : A).
Arguments NoChange {A}.
Arguments SetTo {A} _.

(** [chat_history[-1][1] = full_response]; [None] is the [IndexError] on an
    empty list. *)
Definition set_last_reply (full_response : string) (chat_history : chat_pairs)
  : option chat_pairs :=
  match last chat_history with
  | Some (u, _) =>
      Some (<[pred (length chat_history) := (u, full_response)]> chat_history)
  | None => None
  end.

(** The [for partial_response in ...] loop of [handle_message_send]. The
    generator yields the one list object it keeps updating; the chatbot is
    redrawn from it at each [yield], so a yield is recorded as the content
    of that object at that moment. *)
Fixpoint send_loop (chat_history : chat_pairs) (partials : list string)
  : ui_run (update chat_pairs) :=
  match partials with
  | [] => UiRun [] None
  | partial_response :: rest =>
      match set_last_reply partial_response chat_history with
      | None => UiRun [] (Some (Exn "IndexError" "list index out of range"))
      | Some chat_history =>
          let r := send_loop chat_history rest in
          UiRun (SetTo chat_history :: shown r) (ui_outcome r)
      end
  end.

(** [handle_message_send(current_session_id, user_msg, chat_history)];
    [None] is Python's [None] for each argument. *)
Definition handle_message_send (post : string -> string -> stream_reply)
    (current_session_id user_msg : option string) (chat_history : option chat_pairs)
  : ui_run (update chat_pairs) :=
  let current_session_id :=
    PyStr.strip (PyStr.or_default (default "" current_session_id) "default") in
  let user_msg := PyStr.strip (default "" user_msg) in
  if negb (PyStr.truthy user_msg) then UiRun [NoChange] None
  else
    let chat_history := (default [] chat_history ++ [(user_msg, "")])%list in
    let stream := get_streaming_response post current_session_id user_msg in
    let r := send_loop chat_history (shown stream) in
    match ui_outcome r with
    | Some e => r
    | None => UiRun (shown r) (ui_outcome stream)
    end.

(** The assistant side of the last bubble of a yielded chatbot value. *)
Definition last_reply (u : update chat_pairs) : option string :=
  match u with
  | NoChange => None
  | SetTo h => snd <$> last h
  end.

(** The cumulative concatenations of fragments [f1..fn]:
    [f1], [f1 + f2], ..., [f1 + ... + fn]; the k-th is the concatenation of
    the first k fragments. *)
Definition cumulative (fs : list string) : list string :=
  (fun k => PyStr.join (take k fs)) <$> seq 1 (length fs).

(** *** Session handling *)

(** [gr.update(choices=..., value=...)] of the session dropdown. *)
Record dropdown := Dropdown { choices : list string; value : option string }.

(** The four outputs the session handlers return, named by the
    component each one is wired to. *)
Record outputs := Outputs {
  out_chat : update chat_pairs;
  out_dropdown : update dropdown;
  out_choices : list string;
  out_status : string
}.

(** [init_sessions()]; [sessions[0]] cannot fail, the list is not empty
    there. *)
Definition init_sessions (list_reply : http_reply sessions_body)
    (create_reply : http_reply session_body) : exn + outputs :=
  let sessions := get_available_sessions list_reply in
  let sessions' :=
    if negb (bool_decide (sessions = [])) then inr sessions
    else match create_session create_reply with
         | inl e => inl e
         | inr new_session_id => inr [new_session_id]
         end in
  match sessions' with
  | inl e => inl e
  | inr sessions =>
      match sessions with
      | first_session_id :: _ =>
          inr (Outputs (SetTo []) (SetTo (Dropdown sessions (Some first_session_id)))
                 sessions "")
      | [] => inl (Exn "IndexError" "list index out of range")
      end
  end.

(** [handle_new_chat_click(current_choices)] *)
Definition handle_new_chat_click (create_reply : http_reply session_body)
    (list_reply : http_reply sessions_body) (current_choices : list string)
  : exn + outputs :=
  match create_session create_reply with
  | inl e => inl e
  | inr new_session_id =>
      let sessions := get_available_sessions list_reply in
      let sessions :=
        if bool_decide (new_session_id ∈ sessions) then sessions
        else (sessions ++ [new_session_id])%list in
      inr (Outputs (SetTo []) (SetTo (Dropdown sessions (Some new_session_id)))
             sessions ("Created: " ++ new_session_id))
  end.

(** [handle_session_deletion(current_session_id, current_choices)];
    [delete_reply] answers [httpx.delete], its body is [response.text]. *)
Definition handle_session_deletion (delete_reply : http_reply string)
    (create_reply : http_reply session_body)
    (current_session_id : option string) (current_choices : list string)
  : exn + outputs :=
  let session_to_be_deleted := PyStr.strip (default "" current_session_id) in
  let choices := current_choices in
  if negb (PyStr.truthy session_to_be_deleted) then
    inr (Outputs NoChange NoChange choices "Select a session first.")
  else
    match delete_reply with
    | HttpRaised e => inl e
    | HttpResponse code text =>
        let choices := filter (fun c => c <> session_to_be_deleted) choices in
        if bool_decide (choices = []) then
          match create_session create_reply with
          | inl e => inl e
          | inr new_sid =>
              inr (Outputs (SetTo []) (SetTo (Dropdown [new_sid] (Some new_sid)))
                     [new_sid] "Deleted. Started a new chat.")
          end
        else
          match choices with
          | new_value :: _ =>
              let status :=
                if (code =? 200)%Z then "Deleted."
                else "Delete failed: " ++ text in
              inr (Outputs (SetTo []) (SetTo (Dropdown choices (Some new_value)))
                     choices status)
          | [] => inl (Exn "IndexError" "list index out of range")
          end
    end.

(** *** The page ([build_ui]) *)

(** The components the session handlers read and write. *)
Record page := Page {
  session_dropdown : dropdown;
  choices_state : list string;
  chat_box : chat_pairs;
  status_text : string
}.

(** The page as built: an empty dropdown, [gr.State([])], an empty chatbot
    and an empty status line. *)
Definition initial_page : page := Page (Dropdown [] None) [] [] "".

Definition apply_update {A} (u : update A) (old : A) : A :=
  match u with
  | NoChange => old
  | SetTo a => a
  end.

(** An event: the handler's outputs are written to the components; when
    the handler raises, the components keep their values. *)
Definition dispatch (r : exn + outputs) (p : page) : page :=
  match r with
  | inl _ => p
  | inr o =>
      Page (apply_update (out_dropdown o) (session_dropdown p))
           (out_choices o)
           (apply_update (out_chat o) (chat_box p))
           (out_status o)
  end.

(** [ui.load(init_sessions, ...)] *)
Definition on_load (list_reply : http_reply sessions_body)
    (create_reply : http_reply session_body) (p : page) : page :=
  dispatch (init_sessions list_reply create_reply) p.

(** [new_session_button.click(handle_new_chat_click, ...)] *)
Definition on_new_session (create_reply : http_reply session_body)
    (list_reply : http_reply sessions_body) (p : page) : page :=
  dispatch (handle_new_chat_click create_reply list_reply (choices_state p)) p.

(** [delete_session_button.click(handle_session_deletion, ...)] *)
Definition on_delete (delete_reply : http_reply string)
    (create_reply : http_reply session_body) (p : page) : page :=
  dispatch (handle_session_deletion delete_reply create_reply
              (value (session_dropdown p)) (choices_state p)) p.

(** The sessions the user can select. *)
Definition selectable (p : page) : list string := choices (session_dropdown p).

(** *** Conversation history *)

(** One element of [data["messages"]] as the client reads it:
    [m.get("role")] and [m.get("content", "")], each key present or not. *)
Record json_message := JsonMessage {
  j_role : option string;
  j_content : option string
}.

(** The body of [GET /session/{id}/history] as the client inspects it:
    [response.json()] or a [.get] on it raises, or [data] is a dictionary
    with or without the key ["messages"]. *)
Inductive history_body :=
  | HistoryNotJSON
  | HistoryData (messages : option (list json_message)).

(** The [for m in msgs] loop of [load_chat_history], with its two
    variables: [pairs] (the list [chat_pairs] of the source) and
    [last_user]. *)
Fixpoint pair_loop (msgs : list json_message) (pairs : chat_pairs)
    (last_user : option string) : chat_pairs * option string :=
  match msgs with
  | [] => (pairs, last_user)
  | m :: rest =>
      let role := j_role m in
      let content := default "" (j_content m) in
      if bool_decide (role = Some "user") then
        pair_loop rest pairs (Some content)
      else if bool_decide (role = Some "assistant") then
        pair_loop rest
          (pairs ++ [(PyStr.or_default (default "" last_user) "", content)])%list
          None
      else pair_loop rest pairs last_user
  end.

(** The conversion of a message list to chat pairs, with the trailing
    [if last_user is not None]. *)
Definition to_chat_pairs (msgs : list json_message) : chat_pairs :=
  let '(pairs, last_user) := pair_loop msgs [] None in
  match last_user with
  | Some u => (pairs ++ [(u, "")])%list
  | None => pairs
  end.

(** [load_chat_history(session_id)]; [get] is the backend behind
    [httpx.get(.../session/{session_id}/history)]. Every exception ends in
    the [except] branch. *)
Definition load_chat_history (get : string -> http_reply history_body)
    (session_id : option string) : chat_pairs :=
  let session_id := PyStr.strip (default "" session_id) in
  if negb (PyStr.truthy session_id) then []
  else
    match get session_id with
    | HttpRaised _ => []
    | HttpResponse code body =>
        if is_success code then
          match body with
          | HistoryNotJSON => []
          | HistoryData msgs => to_chat_pairs (default [] msgs)
          end
        else []
    end.

(** [f"{x}"] for a value that is a [str] or [None]. *)
Definition format_opt (x : option string) : string := default "None" x.

(** [handle_session_change(selected_session_id, current_history)]: the new
    chatbot value and the status line. *)
Definition handle_session_change (get : string -> http_reply history_body)
    (selected_session_id : option string) (current_history : chat_pairs)
  : update chat_pairs * string :=
  let chat_history_pairs := load_chat_history get selected_session_id in
  let status :=
    if negb (bool_decide (chat_history_pairs = [])) then
      "Loaded " ++ PyStr.str_of_Z (Z.of_nat (length chat_history_pairs))
        ++ " turn(s) from session " ++ format_opt selected_session_id ++ "."
    else "No history for session " ++ format_opt selected_session_id ++ "." in
  (SetTo chat_history_pairs, status).

(** [session_dropdown.change(handle_session_change, ...)] *)
Definition on_session_change (get : string -> http_reply history_body)
    (p : page) : page :=
  let '(chat, status) :=
    handle_session_change get (value (session_dropdown p)) (chat_box p) in
  Page (session_dropdown p) (choices_state p) (apply_update chat (chat_box p)) status.

(** The dropdown and [choices_state] hold the same list, and the selected
    value, when there is one, is in it. *)
Definition consistent (p : page) : Prop :=
  choices (session_dropdown p) = choices_state p
  /\ forall v, value (session_dropdown p) = Some v -> v ∈ choices (session_dropdown p).

(** A log of whole turns: each turn is a ["user"] message followed by its
    ["assistant"] message. *)
Definition user_entry (u : string) : json_message :=
  JsonMessage (Some "user") (Some u).

Definition assistant_entry (a : string) : json_message :=
  JsonMessage (Some "assistant") (Some a).

Definition log_of_turns (turns : chat_pairs) : list json_message :=
  concat ((fun t => [user_entry t.1; assistant_entry t.2]) <$> turns).

(** The messages that count for the display: those tagged ["user"] or
    ["assistant"]. *)
Definition spoken (m : json_message) : Prop :=
  j_role m = Some "user" \/ j_role m = Some "assistant".

#[global] Instance spoken_dec (m : json_message) : Decision (spoken m).
Proof. unfold spoken. apply _. Defined.

(** The texts of the ["assistant"] messages of a list, in order. *)
Definition assistant_texts (msgs : list json_message) : list string :=
  (fun m => default "" (j_content m))
    <$> filter (fun m => j_role m = Some "assistant") msgs.

End UI.

(** ** The client talking to the orchestrator *)

Module Wire.

Import Backend UI.

(** One entry of [HistoryOut.messages] in the JSON body. *)
Definition to_json (m : msg_out) : json_message :=
  JsonMessage (Some (role m)) (Some (text m)).

(** [GET /session/{id}/history] answered by [get_history] on the server
    state [st]. *)
Definition serve_history (st : state) (session_id : string)
  : http_reply history_body :=
  HttpResponse 200
    (HistoryData (Some (to_json <$> messages (get_history session_id st).1))).

(** [GET /sessions] answered by [list_all_sessions]. *)
Definition serve_sessions (st : state) : http_reply sessions_body :=
  HttpResponse 200 (SessionsKey (list_all_sessions st).1).

(** The text of the body of a [POST /chat] answer: the fragments of a
    streamed body put together, the detail of a rejection. *)
Definition body_text (reply : chat_reply) : string :=
  match reply with
  | Streamed _ r => PyStr.join (fragments r)
  | Rejected _ detail => detail
  end.

(** The history entries of a conversation made of whole turns. *)
Definition entries_of_turns (turns : chat_pairs) : list msg_out :=
  concat ((fun t => [MsgOut "user" t.1; MsgOut "assistant" t.2]) <$> turns).

End Wire.

(** * Properties *)

(** ** Python strings *)

Section PyStrFacts.

Import PyStr.

Lemma truthy_false_iff (s : string) : truthy s = false <-> s = "".
Proof. destruct s; simpl; split; congruence. Qed.

Lemma truthy_true_iff (s : string) : truthy s = true <-> s <> "".
Proof. destruct s; simpl; split; congruence. Qed.

Lemma all_space_lstrip (s : string) : all_space (lstrip s) = all_space s.
Proof.
  induction s as [|c s IH]; simpl; [done|].
  destruct (isspace c) eqn:Hc; simpl; [exact IH | by rewrite Hc].
Qed.

Lemma rstrip_empty_iff (s : string) : rstrip s = "" <-> all_space s = true.
Proof.
  induction s as [|c s IH]; simpl; [done|].
  destruct (rstrip s) as [|c' r] eqn:Hr.
  - destruct (isspace c); simpl.
    + split; [intros _; by apply IH | done].
    + split; discriminate.
  - split; [discriminate|].
    intros H. apply andb_true_iff in H as [_ H].
    apply IH in H. discriminate.
Qed.

(** White-space-only text is exactly the text [strip] empties. *)
Lemma strip_empty_iff (s : string) : strip s = "" <-> all_space s = true.
Proof. unfold strip. by rewrite rstrip_empty_iff, all_space_lstrip. Qed.

Lemma string_app_nil_l (s : string) : "" ++ s = s.
Proof. reflexivity. Qed.

Lemma string_app_cons (c : ascii) (s t : string) :
  String c s ++ t = String c (s ++ t).
Proof. reflexivity. Qed.

Lemma string_app_nil_r (s : string) : s ++ "" = s.
Proof.
  induction s as [|c s IH]; [done|].
  by rewrite string_app_cons, IH.
Qed.

Lemma string_app_assoc (a b c : string) : (a ++ b) ++ c = a ++ b ++ c.
Proof.
  induction a as [|x a IH]; [done|].
  by rewrite !string_app_cons, IH.
Qed.

(** Dropping empty pieces does not change the concatenation. *)
Lemma join_filter_nonempty (l : list string) :
  join (filter (fun s => s <> "") l) = join l.
Proof.
  induction l as [|s l IH]; simpl; [done|].
  rewrite filter_cons. destruct (decide (s <> "")) as [Hs|Hs].
  - simpl. by rewrite IH.
  - apply dec_stable in Hs. subst s. simpl. exact IH.
Qed.

End PyStrFacts.

(** ** The history store *)

Section HistoryFacts.

Import History.

Lemma lookup_setdefault (k : string) (s : store) :
  setdefault k s !! k = Some (aget_messages k s).
Proof.
  unfold setdefault, aget_messages.
  destruct (s !! k) eqn:H; simpl; [done | by rewrite lookup_insert_eq].
Qed.

Lemma lookup_setdefault_ne (k k' : string) (s : store) :
  k <> k' -> setdefault k s !! k' = s !! k'.
Proof.
  intros Hne. unfold setdefault.
  destruct (s !! k); [done | by rewrite lookup_insert_ne].
Qed.

Lemma aget_setdefault (k h : string) (s : store) :
  aget_messages h (setdefault k s) = aget_messages h s.
Proof.
  destruct (decide (k = h)) as [->|Hne].
  - unfold aget_messages at 1. by rewrite lookup_setdefault.
  - unfold aget_messages. by rewrite lookup_setdefault_ne.
Qed.

(** A handle's key is in the store, so its append cannot miss. *)
Lemma aadd_after_setdefault (k : string) (m : message) (s : store) :
  aadd_message k m (setdefault k s)
  = Some (<[k := (aget_messages k s ++ [m])%list]> s).
Proof.
  unfold aadd_message. rewrite lookup_setdefault. f_equal.
  unfold setdefault. destruct (s !! k); [done | by rewrite insert_insert_eq].
Qed.

Lemma aadd_present (k : string) (m : message) (s : store) (l : list message) :
  s !! k = Some l -> aadd_message k m s = Some (<[k := (l ++ [m])%list]> s).
Proof. intros H. unfold aadd_message. by rewrite H. Qed.

Lemma aclear_after_setdefault (k : string) (s : store) :
  aclear k (setdefault k s) = Some (<[k := []]> s).
Proof.
  unfold aclear. rewrite lookup_setdefault. f_equal.
  unfold setdefault. destruct (s !! k); [done | by rewrite insert_insert_eq].
Qed.

Lemma aget_insert (k : string) (l : list message) (s : store) :
  aget_messages k (<[k := l]> s) = l.
Proof. unfold aget_messages. by rewrite lookup_insert_eq. Qed.

Lemma aget_insert_ne (k h : string) (l : list message) (s : store) :
  k <> h -> aget_messages h (<[k := l]> s) = aget_messages h s.
Proof. intros H. unfold aget_messages. by rewrite lookup_insert_ne. Qed.

End HistoryFacts.

Create Rewrite HintDb store.
#[global] Hint Rewrite aget_insert aget_setdefault : store.

(** Reading a session's log out of a state built with the setters. *)
Ltac read_log :=
  unfold Backend.history_of;
  cbn [Backend.STORE Backend.note_call Backend.note_build Backend.set_STORE
       Backend.set_chat_sessions];
  autorewrite with store.

(** ** The orchestrator *)

Section BackendFacts.

Import History Backend.

(** [get_history] answers with the stored messages, each under the tag of
    its class; its only effect is the [setdefault] of the handle. *)
Lemma get_history_eq (session_id : string) (st : state) :
  get_history session_id st
  = ({| out_session_id := session_id;
        messages := (fun m => MsgOut (role_of m) (content m))
                      <$> history_of session_id st |},
     set_STORE (setdefault (handle_sid session_id) (STORE st)) st).
Proof.
  unfold get_history, history_of, FakeSQLChatMessageHistory.
  by rewrite aget_setdefault.
Qed.

Lemma read_history_eq (session_id : string) (st : state) :
  read_history session_id st
  = (fun m => MsgOut (role_of m) (content m)) <$> history_of session_id st.
Proof. unfold read_history. by rewrite get_history_eq. Qed.

(** The relay loop keeps the non-empty texts, in order. *)
Lemma gen_loop_fragments (ys : list (chunk * state)) :
  (gen_loop ys).*1 = filter (fun s => s <> "") (chunk_text <$> ys.*1).
Proof.
  induction ys as [|[c st] ys IH]; [done|].
  cbn [gen_loop fmap list_fmap fst]. rewrite filter_cons.
  destruct (PyStr.truthy (chunk_text c)) eqn:Ht.
  - apply truthy_true_iff in Ht. rewrite decide_True by done.
    cbn. f_equal. exact IH.
  - apply truthy_false_iff in Ht. rewrite decide_False by (by intros []).
    exact IH.
Qed.

(** Every relayed fragment carries the state its chunk was yielded in. *)
Lemma gen_loop_states (P : state -> Prop) (ys : list (chunk * state)) :
  Forall (fun y => P y.2) ys -> Forall (fun y => P y.2) (gen_loop ys).
Proof.
  induction 1 as [|[c st] ys Hy Hys IH]; simpl; [constructor|].
  destruct (PyStr.truthy (chunk_text c)); [by constructor | done].
Qed.

Lemma wrapper_loop_eq (st : state) (cs : list string) (acc : string) :
  wrapper_loop st cs acc
  = ((fun c => (ChunkStr c, st)) <$> cs, acc ++ PyStr.join cs).
Proof.
  revert acc. induction cs as [|c cs IH]; intros acc; simpl.
  - by rewrite string_app_nil_r.
  - by rewrite IH, string_app_assoc.
Qed.

(** [FakeHistoryWrapper.astream] in closed form: the user's message is in
    the log before the first chunk, the reply after the last one, and only
    when the provider's stream ended normally. *)
Lemma FakeHistoryWrapper_eq (u : chain) (inputs : chat_inputs) (sid : string)
    (st : state) :
  let h := handle_sid sid in
  let old := aget_messages h (STORE st) in
  let asked := (old ++ [Message HumanMessage (input inputs)])%list in
  let st2 := note_call sid inputs (set_STORE (<[h := asked]> (STORE st)) st) in
  let cs := chunks (u inputs sid) in
  let ys := (fun c => (ChunkStr c, st2)) <$> cs in
  FakeHistoryWrapper u inputs sid st
  = match failure (u inputs sid) with
    | Some e => Run ys st2 (Some e)
    | None =>
        Run ys
          (set_STORE
             (<[h := (asked ++ [Message AIMessage (PyStr.join cs)])%list]> (STORE st))
             st2)
          None
    end.
Proof.
  intros h old asked st2 cs ys.
  unfold FakeHistoryWrapper, FakeSQLChatMessageHistory.
  fold h. rewrite aadd_after_setdefault. fold old asked st2.
  rewrite wrapper_loop_eq. fold cs ys. rewrite string_app_nil_l.
  destruct (failure (u inputs sid)); [done|].
  rewrite (aadd_present h _ _ asked) by apply lookup_insert_eq.
  by rewrite insert_insert_eq.
Qed.

Lemma chat_accepts (w : runnable_with_history) (c : chain) (body : ChatIn)
    (st : state) :
  PyStr.strip (user_message body) <> "" ->
  post_chat w c body st
  = (let r := gen (w c (ChatInputs SYSTEM_PROMPT (PyStr.strip (user_message body)))
                     (PyStr.strip (session_id body)) (note_build st)) in
     (Streamed 200 r, final r)).
Proof.
  intros H. unfold post_chat, chat.
  apply truthy_true_iff in H. by rewrite H.
Qed.

End BackendFacts.

Section ChatExchange.

Import History Backend.

Lemma fmap_chunk_text (st : state) (cs : list string) :
  chunk_text <$> ((fun c => (ChunkStr c, st)) <$> cs).*1 = cs.
Proof. induction cs as [|c cs IH]; [done|]. cbn. by rewrite IH. Qed.

Lemma history_of_note_build (sid : string) (st : state) :
  history_of sid (note_build st) = history_of sid st.
Proof. reflexivity. Qed.

(** What [gen] relays from the repository's runnable, whatever the end of
    the provider's stream: the non-empty chunks, each yielded while the log
    ends with the user's message. *)
Lemma relayed_by_gen (c : chain) (inputs : chat_inputs) (sid : string) (st : state) :
  let src := FakeHistoryWrapper c inputs sid st in
  (gen_loop (yields src)).*1 = filter (fun s => s <> "") (chunks (c inputs sid))
  /\ Forall (fun y => history_of sid y.2
                      = (history_of sid st ++ [Message HumanMessage (input inputs)])%list)
       (gen_loop (yields src))
  /\ outcome src = failure (c inputs sid).
Proof.
  intros src. subst src. rewrite FakeHistoryWrapper_eq. cbv zeta.
  set (st2 := note_call _ _ _).
  assert (Hst2 : history_of sid st2
                 = (history_of sid st ++ [Message HumanMessage (input inputs)])%list).
  { unfold st2. by read_log. }
  destruct (failure (c inputs sid)); cbn [yields outcome];
    (split; [by rewrite gen_loop_fragments, fmap_chunk_text|]);
    (split; [|done]);
    apply (gen_loop_states (fun s => history_of sid s = _));
    apply Forall_fmap, Forall_forall; intros x _; exact Hst2.
Qed.

(** The log when the runnable has stopped. *)
Lemma log_after_stream (c : chain) (inputs : chat_inputs) (sid : string) (st : state) :
  history_of sid (final (FakeHistoryWrapper c inputs sid st))
  = match failure (c inputs sid) with
    | Some _ => (history_of sid st ++ [Message HumanMessage (input inputs)])%list
    | None =>
        (history_of sid st
         ++ [Message HumanMessage (input inputs);
             Message AIMessage (PyStr.join (chunks (c inputs sid)))])%list
    end.
Proof.
  rewrite FakeHistoryWrapper_eq. cbv zeta.
  destruct (failure (c inputs sid)); cbn [final]; read_log; [done|].
  by rewrite <- (assoc_L (++)%list).
Qed.

Lemma final_gen (src : run chunk) : final (gen src) = final src.
Proof. unfold gen. by destruct (outcome src). Qed.

Lemma outcome_gen (src : run chunk) : outcome (gen src) = None.
Proof. unfold gen. by destruct (outcome src). Qed.

Lemma fmap_chunk_content (st : state) (cs : list string) :
  chunk_text <$> ((fun c => (ChunkObj (Some c), st)) <$> cs).*1 = cs.
Proof. induction cs as [|c cs IH]; [done|]. cbn. by rewrite IH. Qed.

(** [RunnableWithMessageHistory] in closed form: the log is untouched while
    the chunks are yielded; after a normal end it has grown by the user's
    message and the reply, after a raise it has not grown. *)
Lemma RunnableWithMessageHistory_eq (u : chain) (inputs : chat_inputs)
    (sid : string) (st : state) :
  let h := handle_sid sid in
  let old := aget_messages h (STORE st) in
  let st1 := note_call sid inputs (set_STORE (setdefault h (STORE st)) st) in
  let cs := chunks (u inputs sid) in
  let ys := (fun c => (ChunkObj (Some c), st1)) <$> cs in
  RunnableWithMessageHistory u inputs sid st
  = match failure (u inputs sid) with
    | Some e => Run ys st1 (Some e)
    | None =>
        Run ys
          (set_STORE
             (<[h := (old ++ [Message HumanMessage (input inputs);
                              Message AIMessage (PyStr.join cs)])%list]> (STORE st))
             st1)
          None
    end.
Proof.
  intros h old st1 cs ys.
  unfold RunnableWithMessageHistory, FakeSQLChatMessageHistory.
  fold h st1 cs ys.
  destruct (failure (u inputs sid)); [done|].
  rewrite aadd_after_setdefault. fold old.
  rewrite (aadd_present h _ _ (old ++ [Message HumanMessage (input inputs)])%list)
    by apply lookup_insert_eq.
  by rewrite insert_insert_eq, <- (assoc_L (++)%list).
Qed.

(** What [gen] relays from [RunnableWithMessageHistory]: the non-empty
    chunks, each yielded while every session's log is still what it was. *)
Lemma relayed_before_recording (c : chain) (inputs : chat_inputs) (sid : string)
    (st : state) :
  let src := RunnableWithMessageHistory c inputs sid st in
  (gen_loop (yields src)).*1 = filter (fun s => s <> "") (chunks (c inputs sid))
  /\ Forall (fun y => forall S', history_of S' y.2 = history_of S' st)
       (gen_loop (yields src))
  /\ outcome src = failure (c inputs sid).
Proof.
  intros src. subst src. rewrite RunnableWithMessageHistory_eq. cbv zeta.
  set (st1 := note_call _ _ _).
  assert (Hst1 : forall S', history_of S' st1 = history_of S' st).
  { intros S'. unfold st1. by read_log. }
  destruct (failure (c inputs sid)); cbn [yields outcome];
    (split; [by rewrite gen_loop_fragments, fmap_chunk_content|]);
    (split; [|done]);
    apply (gen_loop_states (fun s => forall S', history_of S' s = _));
    apply Forall_fmap, Forall_forall; intros x _; exact Hst1.
Qed.

(** The logs when [RunnableWithMessageHistory] has stopped. *)
Lemma log_when_run_ends (c : chain) (inputs : chat_inputs) (sid : string)
    (st : state) :
  match failure (c inputs sid) with
  | Some _ =>
      forall S', history_of S' (final (RunnableWithMessageHistory c inputs sid st))
                 = history_of S' st
  | None =>
      history_of sid (final (RunnableWithMessageHistory c inputs sid st))
      = (history_of sid st
         ++ [Message HumanMessage (input inputs);
             Message AIMessage (PyStr.join (chunks (c inputs sid)))])%list
  end.
Proof.
  rewrite RunnableWithMessageHistory_eq. cbv zeta.
  destruct (failure (c inputs sid)); cbn [final]; [intros S'|]; by read_log.
Qed.

(** C1. A [POST /chat] whose trimmed [user_message] is not empty and whose
    provider stream ends normally is answered 200 and streamed to its end
    without an exception; the fragments are the non-empty chunks in
    production order; afterwards the session's history is the one before
    followed by exactly two entries, first ["user"] with the trimmed input,
    then ["assistant"] with the concatenation of the streamed fragments;
    and both are appended only after streaming has ended: at every
    fragment the session's history is still the one before. *)
Theorem chat_appends_user_then_assistant (c : chain) (body : ChatIn) (st : state) :
  let sid := PyStr.strip (session_id body) in
  let user_msg := PyStr.strip (user_message body) in
  user_msg <> "" ->
  failure (c (ChatInputs SYSTEM_PROMPT user_msg) sid) = None ->
  exists r st',
    post_chat RunnableWithMessageHistory c body st = (Streamed 200 r, st')
    /\ outcome r = None
    /\ fragments r
       = filter (fun s => s <> "") (chunks (c (ChatInputs SYSTEM_PROMPT user_msg) sid))
    /\ read_history sid st'
       = (read_history sid st
          ++ [MsgOut "user" user_msg; MsgOut "assistant" (PyStr.join (fragments r))])%list
    /\ Forall (fun y => read_history sid y.2 = read_history sid st) (yields r).
Proof.
  intros sid user_msg Hmsg Hok.
  rewrite chat_accepts by exact Hmsg. fold sid user_msg. cbv zeta.
  set (inputs := ChatInputs SYSTEM_PROMPT user_msg) in *.
  destruct (relayed_before_recording c inputs sid (note_build st))
    as (Hfr & Hys & Hout).
  pose proof (log_when_run_ends c inputs sid (note_build st)) as Hlog.
  rewrite Hok in Hout, Hlog.
  assert (Hgen : gen (RunnableWithMessageHistory c inputs sid (note_build st))
                 = Run (gen_loop (yields (RunnableWithMessageHistory c inputs sid
                                            (note_build st))))
                       (final (RunnableWithMessageHistory c inputs sid
                                 (note_build st))) None).
  { unfold gen. by rewrite Hout. }
  eexists _, _. split; [reflexivity|]. rewrite Hgen. cbn [outcome final yields].
  split; [done|]. split; [exact Hfr|]. split.
  - unfold fragments. cbn [yields]. rewrite Hfr, join_filter_nonempty.
    rewrite !read_history_eq, Hlog, history_of_note_build.
    by rewrite fmap_app.
  - eapply Forall_impl; [exact Hys|]. intros y Hy. cbn beta in Hy.
    by rewrite !read_history_eq, Hy, history_of_note_build.
Qed.

Lemma chat_appends_user_then_assistant_witness :
  let body := {| session_id := "abc"; user_message := " Hello " |} in
  PyStr.strip (user_message body) <> ""
  /\ exists r st',
       post_chat RunnableWithMessageHistory FakeStreamChain body fresh
       = (Streamed 200 r, st')
       /\ outcome r = None
       /\ fragments r = ["HEL"; "LO: "; "Hello"]
       /\ read_history "abc" st'
          = (read_history "abc" fresh
             ++ [MsgOut "user" "Hello"; MsgOut "assistant" (PyStr.join (fragments r))])%list
       /\ Forall (fun y => read_history "abc" y.2 = read_history "abc" fresh)
            (yields r).
Proof.
  split; [by vm_compute|].
  apply (chat_appends_user_then_assistant FakeStreamChain
           {| session_id := "abc"; user_message := " Hello " |} fresh);
    [by vm_compute | reflexivity].
Defined.




(** C2. When the stream of the history-aware runnable raises after some
    chunks, the response of [POST /chat] is still a 200 whose generator
    returns normally; its fragments are the ones relayed before the failure,
    the same as if the stream had ended there, followed by exactly one more
    fragment, which carries the tag [[ERROR]], the exception's type name and
    its message. *)
Theorem chat_stream_failure_is_reported (w : runnable_with_history) (c : chain)
    (body : ChatIn) (st : state) (e : exn) :
  let sid := PyStr.strip (session_id body) in
  let user_msg := PyStr.strip (user_message body) in
  let src := w c (ChatInputs SYSTEM_PROMPT user_msg) sid (note_build st) in
  user_msg <> "" ->
  outcome src = Some e ->
  exists r,
    (post_chat w c body st).1 = Streamed 200 r
    /\ outcome r = None
    /\ fragments r
       = (fragments (gen (Run (yields src) (final src) None))
          ++ [provider_failed e])%list
    /\ fragments (gen (Run (yields src) (final src) None))
       = filter (fun s => s <> "") (chunk_text <$> fragments src)
    /\ provider_failed e
       = String "010" (String "010" "[ERROR] Provider failed: ")
         ++ exn_type e ++ ": " ++ exn_str e.
Proof.
  intros sid user_msg src Hmsg Hraise.
  rewrite chat_accepts by exact Hmsg. fold sid user_msg src. cbv zeta.
  eexists. split; [reflexivity|]. split; [apply outcome_gen|].
  unfold fragments, gen. rewrite Hraise. cbn [yields outcome].
  split; [by rewrite fmap_app|]. split; [apply gen_loop_fragments | reflexivity].
Qed.

Lemma chat_stream_failure_is_reported_witness :
  let body := {| session_id := "abc"; user_message := "Hello" |} in
  let flaky : chain :=
    fun _ _ => ProviderStream ["HEL"; ""; "LO"] (Some (Exn "RuntimeError" "boom")) in
  exists r,
    (post_chat FakeHistoryWrapper flaky body fresh).1 = Streamed 200 r
    /\ outcome r = None
    /\ fragments r
       = ["HEL"; "LO";
          String "010" (String "010" "[ERROR] Provider failed: RuntimeError: boom")].
Proof.
  destruct (chat_stream_failure_is_reported FakeHistoryWrapper
              (fun _ _ => ProviderStream ["HEL"; ""; "LO"] (Some (Exn "RuntimeError" "boom")))
              {| session_id := "abc"; user_message := "Hello" |} fresh
              (Exn "RuntimeError" "boom"))
    as (r & Hpost & Hout & Hfr & _); [by vm_compute | reflexivity |].
  exists r. split; [exact Hpost|]. split; [exact Hout|].
  rewrite Hfr. reflexivity.
Defined.

(** C3. A [POST /chat] whose [user_message] is empty or made of white space
    only is answered with status 400 and leaves the whole server state as it
    was: no chain is built, the chain's stream is not started, and no
    session's log changes; this holds for every runnable and every chain. *)
Theorem chat_rejects_blank_message (w : runnable_with_history) (c : chain)
    (body : ChatIn) (st : state) :
  PyStr.all_space (user_message body) = true ->
  chat w c body st = (HTTPException 400 "user_message cannot be empty.", st)
  /\ post_chat w c body st = (Rejected 400 "user_message cannot be empty.", st).
Proof.
  intros Hblank. apply strip_empty_iff in Hblank.
  unfold post_chat, chat. by rewrite Hblank.
Qed.

Lemma chat_rejects_blank_message_witness :
  let blank := String " " (String "009" (String "010" " ")) in
  let body := {| session_id := "abc"; user_message := blank |} in
  PyStr.all_space (user_message body) = true
  /\ chat FakeHistoryWrapper FakeStreamChain body fresh
     = (HTTPException 400 "user_message cannot be empty.", fresh)
  /\ post_chat FakeHistoryWrapper FakeStreamChain body fresh
     = (Rejected 400 "user_message cannot be empty.", fresh).
Proof.
  split; [reflexivity|].
  apply (chat_rejects_blank_message FakeHistoryWrapper FakeStreamChain
           {| session_id := "abc";
              user_message := String " " (String "009" (String "010" " ")) |}
           fresh).
  reflexivity.
Defined.

End ChatExchange.

(** ** Session logs: reading, appending, deleting *)

Section SessionLog.

Import History Backend.

Lemma append_eq (S : string) (m : message) (st : state) :
  append S m st
  = Some (set_STORE (<[handle_sid S := (history_of S st ++ [m])%list]> (STORE st)) st).
Proof.
  unfold append, FakeSQLChatMessageHistory, history_of.
  by rewrite aadd_after_setdefault.
Qed.

Lemma history_of_append (S : string) (m : message) (st st' : state) :
  append S m st = Some st' -> history_of S st' = (history_of S st ++ [m])%list.
Proof.
  rewrite append_eq. intros [= <-]. unfold history_of at 1.
  cbn [STORE set_STORE]. apply aget_insert.
Qed.

Lemma history_of_append_other (S S' : string) (m : message) (st st' : state) :
  handle_sid S <> handle_sid S' ->
  append S m st = Some st' -> history_of S' st' = history_of S' st.
Proof.
  intros Hne. rewrite append_eq. intros [= <-]. unfold history_of at 1.
  cbn [STORE set_STORE]. by apply aget_insert_ne.
Qed.

(** Appends never fail, extend the session's log at its end, and leave the
    other logs and the registry alone. *)
Lemma append_all_log (S : string) (ms : list message) (st : state) :
  exists st',
    append_all S ms st = Some st'
    /\ history_of S st' = (history_of S st ++ ms)%list
    /\ (forall S', handle_sid S <> handle_sid S' ->
                   history_of S' st' = history_of S' st)
    /\ chat_sessions st' = chat_sessions st.
Proof.
  revert st. induction ms as [|m ms IH]; intros st; cbn [append_all].
  - exists st. by rewrite app_nil_r.
  - rewrite append_eq.
    set (st1 := set_STORE _ st).
    assert (H1 : append S m st = Some st1) by apply append_eq.
    destruct (IH st1) as (st' & Hrun & Hlog & Hother & Hreg).
    exists st'. split; [exact Hrun|]. split; [|split].
    + rewrite Hlog, (history_of_append S m st st1 H1).
      by rewrite <- (assoc_L (++)%list).
    + intros S' Hne. rewrite (Hother S' Hne).
      exact (history_of_append_other S S' m st st1 Hne H1).
    + by rewrite Hreg.
Qed.

Lemma out_of_message_with_role (rc : role_tag * string) :
  MsgOut (role_of (message_with_role rc)) (content (message_with_role rc))
  = tagged rc.
Proof. by destruct rc as [[] c]. Qed.

Lemma read_history_fresh (S : string) : read_history S fresh = [].
Proof.
  rewrite read_history_eq. unfold history_of, aget_messages. cbn [STORE fresh].
  by rewrite lookup_empty.
Qed.

(** C4. For every session and every finite sequence of (role, content)
    messages, appending them in order succeeds, and the history endpoint
    then returns what it returned before followed by exactly that sequence,
    in append order, each entry with its role tag and its content unchanged;
    on a server without earlier messages it returns exactly that
    sequence. *)
Theorem history_round_trip (S : string) (rcs : list (role_tag * string))
    (st : state) :
  (exists st',
     append_all S (message_with_role <$> rcs) st = Some st'
     /\ read_history S st' = (read_history S st ++ (tagged <$> rcs))%list)
  /\ (exists st',
        append_all S (message_with_role <$> rcs) fresh = Some st'
        /\ read_history S st' = tagged <$> rcs).
Proof.
  assert (Hgen : forall st0, exists st',
             append_all S (message_with_role <$> rcs) st0 = Some st'
             /\ read_history S st'
                = (read_history S st0 ++ (tagged <$> rcs))%list).
  { intros st0.
    destruct (append_all_log S (message_with_role <$> rcs) st0)
      as (st' & Hrun & Hlog & _).
    exists st'. split; [exact Hrun|].
    rewrite !read_history_eq, Hlog, fmap_app. f_equal.
    rewrite <- list_fmap_compose. apply list_fmap_ext.
    intros _ rc _. apply out_of_message_with_role. }
  split; [apply Hgen|].
  destruct (Hgen fresh) as (st' & Hrun & Hread).
  exists st'. by rewrite Hread, read_history_fresh.
Qed.

Lemma filter_ne_idemp (S : string) (l : list string) :
  filter (fun c => c <> S) (filter (fun c => c <> S) l) = filter (fun c => c <> S) l.
Proof.
  induction l as [|x l IH]; [done|].
  rewrite filter_cons. destruct (decide (x <> S)) as [Hx|Hx]; [|exact IH].
  rewrite filter_cons, decide_True by done. by rewrite IH.
Qed.

Lemma clear_session_history_eq (S : string) (st : state) :
  clear_session_history S st
  = Some (Cleared "cleared" S,
          set_chat_sessions (filter (fun c => c <> S) (chat_sessions st))
            (set_STORE (<[handle_sid S := []]> (STORE st)) st)).
Proof.
  unfold clear_session_history, FakeSQLChatMessageHistory.
  by rewrite aclear_after_setdefault.
Qed.

(** C5. [DELETE /session/S] answers [{status: "cleared", session_id: S}]
    in every state, also when [S] has no row and no log; a second call
    right after the first gives the same answer and leaves the state where
    the first one put it: the history of [S] is empty and [S] is not among
    the sessions [GET /sessions] lists. *)
Theorem delete_session_idempotent (S : string) (st : state) :
  exists st1,
    clear_session_history S st = Some (Cleared "cleared" S, st1)
    /\ clear_session_history S st1 = Some (Cleared "cleared" S, st1)
    /\ read_history S st1 = []
    /\ (S ∉ (list_all_sessions st1).1).
Proof.
  eexists. split; [apply clear_session_history_eq|].
  split; [|split].
  - rewrite clear_session_history_eq. do 2 f_equal.
    unfold set_chat_sessions, set_STORE.
    cbn [chat_sessions STORE chains_built engine_calls].
    by rewrite filter_ne_idemp, insert_insert_eq.
  - rewrite read_history_eq. by read_log.
  - unfold list_all_sessions.
    cbn [fst chat_sessions set_chat_sessions]. rewrite list_elem_of_filter.
    by intros [? _].
Qed.

(** C7. [GET /session/S/history] answers with a [HistoryOut] for [S] in
    every state, whether or not [S] has a row in the registry; the state
    keeps its rows; and when no message is recorded for [S] the [messages]
    list is empty. *)
Theorem get_history_never_fails (S : string) (st : state) :
  exists h st',
    get_history S st = (h, st')
    /\ out_session_id h = S
    /\ chat_sessions st' = chat_sessions st
    /\ (history_of S st = [] -> messages h = []).
Proof.
  eexists _, _. split; [apply get_history_eq|].
  cbn [out_session_id messages]. split; [done|]. split; [done|].
  by intros ->.
Qed.

Lemma get_history_never_fails_witness :
  history_of "ghost" fresh = []
  /\ ("ghost" ∉ chat_sessions fresh)
  /\ exists st',
       get_history "ghost" fresh
       = ({| out_session_id := "ghost"; messages := [] |}, st').
Proof.
  split; [reflexivity|]. split; [by apply not_elem_of_nil|].
  destruct (get_history_never_fails "ghost" fresh)
    as (h & st' & Hget & Hsid & _ & Hempty).
  exists st'. rewrite Hget. destruct h as [sid ms]. cbn in Hsid, Hempty.
  by rewrite Hsid, (Hempty eq_refl).
Defined.

(** C10. A stored message whose class is none of [AIMessage],
    [HumanMessage], [SystemMessage] does not make the history endpoint
    fail: the answer has one entry per stored message, and the entry at that
    message's position has role ["unknown"], a value outside the three role
    tags of the data model, and the message's content. *)
Theorem get_history_unknown_role (S : string) (st : state) (i : nat)
    (cls c : string) :
  history_of S st !! i = Some (Message (OtherMessage cls) c) ->
  exists h st',
    get_history S st = (h, st')
    /\ length (messages h) = length (history_of S st)
    /\ messages h !! i = Some (MsgOut "unknown" c)
    /\ ("unknown" ∉ spec_roles).
Proof.
  intros Hi. eexists _, _. split; [apply get_history_eq|].
  cbn [messages]. split; [by rewrite length_fmap|]. split.
  - by rewrite list_lookup_fmap, Hi.
  - unfold spec_roles. cbn. rewrite !elem_of_cons, elem_of_nil.
    intros [H|[H|[H|[]]]]; discriminate.
Qed.

Lemma get_history_unknown_role_witness :
  let st := State ["abc"]
              {[ "abc" := [Message HumanMessage "2+2?";
                           Message (OtherMessage "ToolMessage") "4"] ]} 0 [] in
  history_of "abc" st !! 1 = Some (Message (OtherMessage "ToolMessage") "4")
  /\ exists h st',
       get_history "abc" st = (h, st')
       /\ length (messages h) = length (history_of "abc" st)
       /\ messages h !! 1 = Some (MsgOut "unknown" "4")
       /\ ("unknown" ∉ spec_roles).
Proof.
  split; [by vm_compute|].
  apply (get_history_unknown_role "abc"
           (State ["abc"]
              {[ "abc" := [Message HumanMessage "2+2?";
                           Message (OtherMessage "ToolMessage") "4"] ]} 0 [])
           1 "ToolMessage" "4").
  by vm_compute.
Defined.

End SessionLog.

(** ** The client *)

Section ClientStreaming.

Import UI.

Lemma combine_loop_eq (acc : string) (fs : list string) :
  combine_loop acc fs
  = (fun k => acc ++ PyStr.join (take k fs)) <$> seq 1 (length fs).
Proof.
  revert acc. induction fs as [|f fs IH]; intros acc; [done|].
  cbn [combine_loop length seq fmap list_fmap take PyStr.join].
  rewrite string_app_nil_r. f_equal.
  rewrite IH, <- (fmap_S_seq 1), <- list_fmap_compose.
  apply list_fmap_ext. intros _ k _. cbn. by rewrite string_app_assoc.
Qed.

Lemma combine_loop_cumulative (fs : list string) :
  combine_loop "" fs = cumulative fs.
Proof. by rewrite combine_loop_eq. Qed.

Lemma set_last_reply_snoc (old : chat_pairs) (u x p : string) :
  set_last_reply p (old ++ [(u, x)])%list = Some (old ++ [(u, p)])%list.
Proof.
  unfold set_last_reply. rewrite last_snoc, length_app. cbn [length].
  replace (pred (length old + 1)) with (length old + 0) by lia.
  by rewrite insert_app_r.
Qed.

(** Each partial text overwrites the assistant side of the last bubble. *)
Lemma send_loop_eq (old : chat_pairs) (u x : string) (ps : list string) :
  send_loop (old ++ [(u, x)])%list ps
  = UiRun ((fun p => SetTo (old ++ [(u, p)])%list) <$> ps) None.
Proof.
  revert x. induction ps as [|p ps IH]; intros x; [done|].
  cbn [send_loop]. rewrite set_last_reply_snoc, IH. reflexivity.
Qed.

(** C8. When a message is sent and the reply arrives as fragments
    [f1..fn] on a successful response whose body ends normally, the handler
    yields n chatbot values and then returns; the k-th value is the earlier
    conversation followed by the bubble (message, [f1 + ... + fk]), so the
    assistant side of the last bubble runs through the cumulative
    concatenations in order. *)
Theorem send_renders_cumulative (post : string -> string -> stream_reply)
    (current_session_id user_msg : option string) (chat_history : option chat_pairs)
    (code : Z) (text : exn + string) (fs : list string) :
  let sid := PyStr.strip (PyStr.or_default (default "" current_session_id) "default") in
  let msg := PyStr.strip (default "" user_msg) in
  msg <> "" ->
  post (PyStr.or_default sid "default") msg = StreamResponse code text fs None ->
  is_success code = true ->
  let r := handle_message_send post current_session_id user_msg chat_history in
  ui_outcome r = None
  /\ shown r
     = (fun t => SetTo (default [] chat_history ++ [(msg, t)])%list) <$> cumulative fs
  /\ last_reply <$> shown r = Some <$> cumulative fs
  /\ length (shown r) = length fs.
Proof.
  intros sid msg Hmsg Hpost Hcode r. subst r.
  unfold handle_message_send. fold sid msg.
  apply truthy_true_iff in Hmsg. rewrite Hmsg. cbn [negb].
  unfold get_streaming_response. rewrite Hpost, Hcode.
  cbn [shown ui_outcome]. rewrite send_loop_eq, combine_loop_cumulative.
  cbn [shown ui_outcome]. split; [done|]. split; [done|]. split.
  - rewrite <- list_fmap_compose. apply list_fmap_ext. intros _ t _.
    cbn. by rewrite last_snoc.
  - unfold cumulative. by rewrite !length_fmap, length_seq.
Qed.

Lemma send_renders_cumulative_witness :
  let post : string -> string -> stream_reply :=
    fun _ _ => StreamResponse 200 (inr "") ["HEL"; "LO: "; "X"] None in
  let r := handle_message_send post (Some "abc") (Some "X") (Some [("hi", "hello")]) in
  ui_outcome r = None
  /\ shown r = [SetTo [("hi", "hello"); ("X", "HEL")];
                SetTo [("hi", "hello"); ("X", "HELLO: ")];
                SetTo [("hi", "hello"); ("X", "HELLO: X")]]
  /\ last_reply <$> shown r = [Some "HEL"; Some "HELLO: "; Some "HELLO: X"]
  /\ length (shown r) = 3.
Proof.
  apply (send_renders_cumulative
           (fun _ _ => StreamResponse 200 (inr "") ["HEL"; "LO: "; "X"] None)
           (Some "abc") (Some "X") (Some [("hi", "hello")])
           200 (inr "") ["HEL"; "LO: "; "X"]);
    [by vm_compute | reflexivity | reflexivity].
Defined.

End ClientStreaming.

Section ClientSessions.

Import UI.

Lemma init_sessions_listed (list_reply : http_reply sessions_body)
    (create_reply : http_reply session_body) (s : string) (l : list string) :
  get_available_sessions list_reply = s :: l ->
  init_sessions list_reply create_reply
  = inr (Outputs (SetTo []) (SetTo (Dropdown (s :: l) (Some s))) (s :: l) "").
Proof. intros H. unfold init_sessions. by rewrite H. Qed.

Lemma init_sessions_empty (list_reply : http_reply sessions_body)
    (create_reply : http_reply session_body) :
  get_available_sessions list_reply = [] ->
  init_sessions list_reply create_reply
  = match create_session create_reply with
    | inl e => inl e
    | inr new => inr (Outputs (SetTo []) (SetTo (Dropdown [new] (Some new))) [new] "")
    end.
Proof.
  intros H. unfold init_sessions. rewrite H. cbn.
  by destruct (create_session create_reply).
Qed.

Lemma fallback_when_listing_fails (code : Z) (b : sessions_body) :
  code <> 200%Z \/ (forall l, b <> SessionsKey l) ->
  get_available_sessions (HttpResponse code b) = ["default"].
Proof.
  intros H. unfold get_available_sessions. destruct b as [| |l]; [done..|].
  destruct H as [H|H]; [|by destruct (H l)].
  apply Z.eqb_neq in H. by rewrite H.
Qed.

(** A deletion never empties a list of selectable sessions that was not
    empty. *)
Lemma on_delete_keeps_selectable (delete_reply : http_reply string)
    (create_reply : http_reply session_body) (p : page) :
  selectable p <> [] -> selectable (on_delete delete_reply create_reply p) <> [].
Proof.
  intros Hp. unfold on_delete, handle_session_deletion.
  destruct (negb (PyStr.truthy _)); [exact Hp|].
  destruct delete_reply as [e|code text]; [exact Hp|].
  destruct (bool_decide _).
  - destruct (create_session create_reply); [exact Hp | done].
  - destruct (filter _ _) as [|c l]; [exact Hp | done].
Qed.

Lemma on_new_session_keeps_selectable (create_reply : http_reply session_body)
    (list_reply : http_reply sessions_body) (p : page) :
  selectable p <> [] -> selectable (on_new_session create_reply list_reply p) <> [].
Proof.
  intros Hp. unfold on_new_session, handle_new_chat_click.
  destruct (create_session create_reply) as [e|new]; [exact Hp|].
  unfold selectable, dispatch. cbn. case_bool_decide as Hin.
  - intros Hnil. rewrite Hnil in Hin. by apply elem_of_nil in Hin.
  - intros Hnil. by apply app_eq_nil in Hnil as [_ ?].
Qed.

(** C9, as stated, fails: when [GET /sessions] answers 200 with an empty
    list and [POST /session] answers 500, [init_sessions] raises and the
    page keeps its empty dropdown. *)
Lemma startup_can_leave_no_session :
  let list_reply := HttpResponse 200 (SessionsKey []) in
  let create_reply := HttpResponse 500 SessionNotJSON in
  init_sessions list_reply create_reply = inl (HTTPStatusError 500)
  /\ selectable (on_load list_reply create_reply initial_page) = []
  /\ ~ (forall lr cr, selectable (on_load lr cr initial_page) <> []).
Proof.
  split; [reflexivity|]. split; [reflexivity|].
  intros H.
  exact (H (HttpResponse 200 (SessionsKey [])) (HttpResponse 500 SessionNotJSON)
           eq_refl).
Qed.

Lemma on_delete_selected (dr : http_reply string) (cr : http_reply session_body)
    (s : string) (p : page) :
  value (session_dropdown p) = Some s ->
  PyStr.strip s <> "" ->
  on_delete dr cr p
  = dispatch
      (match dr with
       | HttpRaised e => inl e
       | HttpResponse code text =>
           match filter (fun c => c <> PyStr.strip s) (choices_state p) with
           | [] =>
               match create_session cr with
               | inl e => inl e
               | inr new_sid =>
                   inr (Outputs (SetTo []) (SetTo (Dropdown [new_sid] (Some new_sid)))
                          [new_sid] "Deleted. Started a new chat.")
               end
           | new_value :: rest =>
               inr (Outputs (SetTo [])
                      (SetTo (Dropdown (new_value :: rest) (Some new_value)))
                      (new_value :: rest)
                      (if (code =? 200)%Z then "Deleted."
                       else "Delete failed: " ++ text))
           end
       end) p.
Proof.
  intros Hv Hs. unfold on_delete, handle_session_deletion. rewrite Hv.
  change (default "" (Some s)) with s.
  apply truthy_true_iff in Hs. rewrite Hs. cbn [negb].
  destruct dr as [e|code text]; [done|].
  destruct (filter _ _) as [|c l]; [|done].
  rewrite bool_decide_eq_true_2 by done. by destruct (create_session cr).
Qed.

(** C9, amended. On startup: a failed session-list call (an exception, a
    status other than 200, a body without the list) yields the single
    placeholder ["default"]; a listed non-empty set of sessions is offered as
    it is; an empty list makes the client create a session, which becomes
    the only selectable one when the creation call succeeds, and when that
    call fails the handler raises and the page stays as it was; so a
    successful creation call always leaves a session to select. Afterwards:
    a deletion or a new-session click never empties a non-empty list of
    selectable sessions. A deletion does exactly this to the list: with
    nothing selected, or when the delete request raises, the list is kept;
    when other sessions remain, they are the list; when the deleted session
    was the last one, a session is created and is the list if the creation
    call succeeds, and if it fails the handler raises and the previous list
    is kept. A new-session click whose creation call fails raises and keeps
    the page. *)
Theorem client_keeps_a_session :
  (forall e cr p, selectable (on_load (HttpRaised e) cr p) = ["default"])
  /\ (forall code b cr p,
        code <> 200%Z \/ (forall l, b <> SessionsKey l) ->
        selectable (on_load (HttpResponse code b) cr p) = ["default"])
  /\ (forall s l cr p,
        selectable (on_load (HttpResponse 200 (SessionsKey (s :: l))) cr p) = s :: l)
  /\ (forall cr new p,
        create_session cr = inr new ->
        selectable (on_load (HttpResponse 200 (SessionsKey [])) cr p) = [new])
  /\ (forall cr e p,
        create_session cr = inl e ->
        init_sessions (HttpResponse 200 (SessionsKey [])) cr = inl e
        /\ on_load (HttpResponse 200 (SessionsKey [])) cr p = p)
  /\ (forall dr cr p,
        selectable p <> [] -> selectable (on_delete dr cr p) <> [])
  /\ (forall code text cr new s p,
        value (session_dropdown p) = Some s ->
        PyStr.strip s <> "" ->
        filter (fun c => c <> PyStr.strip s) (choices_state p) = [] ->
        create_session cr = inr new ->
        selectable (on_delete (HttpResponse code text) cr p) = [new])
  /\ (forall cr lr p,
        selectable p <> [] -> selectable (on_new_session cr lr p) <> [])
  /\ (forall lr cr new p,
        create_session cr = inr new -> selectable (on_load lr cr p) <> [])
  /\ (forall code text cr e s p,
        value (session_dropdown p) = Some s ->
        PyStr.strip s <> "" ->
        filter (fun c => c <> PyStr.strip s) (choices_state p) = [] ->
        create_session cr = inl e ->
        handle_session_deletion (HttpResponse code text) cr (Some s) (choices_state p)
        = inl e
        /\ on_delete (HttpResponse code text) cr p = p)
  /\ (forall e cr s p,
        value (session_dropdown p) = Some s ->
        PyStr.strip s <> "" ->
        handle_session_deletion (HttpRaised e) cr (Some s) (choices_state p) = inl e
        /\ on_delete (HttpRaised e) cr p = p)
  /\ (forall code text cr s p,
        value (session_dropdown p) = Some s ->
        PyStr.strip s <> "" ->
        filter (fun c => c <> PyStr.strip s) (choices_state p) <> [] ->
        selectable (on_delete (HttpResponse code text) cr p)
        = filter (fun c => c <> PyStr.strip s) (choices_state p))
  /\ (forall dr cr p,
        PyStr.strip (default "" (value (session_dropdown p))) = "" ->
        selectable (on_delete dr cr p) = selectable p)
  /\ (forall cr lr e p,
        create_session cr = inl e ->
        handle_new_chat_click cr lr (choices_state p) = inl e
        /\ on_new_session cr lr p = p).
Proof.
  split_and!.
  - done.
  - intros code b cr p H. unfold on_load.
    by rewrite (init_sessions_listed _ cr "default" [])
      by (by apply fallback_when_listing_fails).
  - done.
  - intros cr new p H. unfold on_load.
    rewrite init_sessions_empty by done. by rewrite H.
  - intros cr e p H.
    assert (Hinit : init_sessions (HttpResponse 200 (SessionsKey [])) cr = inl e).
    { rewrite init_sessions_empty by done. by rewrite H. }
    split; [exact Hinit|]. unfold on_load. by rewrite Hinit.
  - apply on_delete_keeps_selectable.
  - intros code text cr new s p Hv Hs Hlast Hnew.
    rewrite (on_delete_selected _ _ s) by done. by rewrite Hlast, Hnew.
  - apply on_new_session_keeps_selectable.
  - intros lr cr new p Hnew. unfold on_load.
    destruct (get_available_sessions lr) as [|s l] eqn:Hl.
    + rewrite init_sessions_empty by done. by rewrite Hnew.
    + by rewrite (init_sessions_listed _ _ s l).
  - intros code text cr e s p Hv Hs Hlast Hfail. split.
    + unfold handle_session_deletion. change (default "" (Some s)) with s.
      apply truthy_true_iff in Hs. rewrite Hs. cbn [negb].
      rewrite Hlast, bool_decide_eq_true_2 by done. by rewrite Hfail.
    + rewrite (on_delete_selected _ _ s) by done. by rewrite Hlast, Hfail.
  - intros e cr s p Hv Hs. split.
    + unfold handle_session_deletion. change (default "" (Some s)) with s.
      apply truthy_true_iff in Hs. by rewrite Hs.
    + by rewrite (on_delete_selected _ _ s).
  - intros code text cr s p Hv Hs Hrem.
    rewrite (on_delete_selected _ _ s) by done.
    by destruct (filter _ _).
  - intros dr cr p Hblank. unfold on_delete, handle_session_deletion.
    by rewrite Hblank.
  - intros cr lr e p Hfail.
    assert (H : handle_new_chat_click cr lr (choices_state p) = inl e).
    { unfold handle_new_chat_click. by rewrite Hfail. }
    split; [exact H|]. unfold on_new_session. by rewrite H.
Qed.

Lemma client_keeps_a_session_witness :
  let down : http_reply sessions_body := HttpResponse 503 SessionsNotJSON in
  let created : http_reply session_body := HttpResponse 200 (SessionKey "n1") in
  let refused : http_reply session_body := HttpResponse 500 SessionNotJSON in
  let last_one := Page (Dropdown ["s1"] (Some "s1")) ["s1"] [] "" in
  let two := Page (Dropdown ["s1"; "s2"] (Some "s1")) ["s1"; "s2"] [] "" in
  selectable (on_load down created initial_page) = ["default"]
  /\ selectable (on_load (HttpResponse 200 (SessionsKey [])) created initial_page)
     = ["n1"]
  /\ selectable (on_delete (HttpResponse 200 "") created last_one) = ["n1"]
  /\ selectable (on_delete (HttpResponse 200 "") refused last_one) <> []
  /\ selectable (on_new_session refused down last_one) <> []
  /\ (handle_session_deletion (HttpResponse 200 "") refused (Some "s1") ["s1"]
      = inl (HTTPStatusError 500)
      /\ on_delete (HttpResponse 200 "") refused last_one = last_one)
  /\ (handle_session_deletion (HttpRaised (Exn "ConnectError" "")) created
        (Some "s1") ["s1"]
      = inl (Exn "ConnectError" "")
      /\ on_delete (HttpRaised (Exn "ConnectError" "")) created last_one = last_one)
  /\ selectable (on_delete (HttpResponse 500 "no") created two) = ["s2"]
  /\ (handle_new_chat_click refused down ["s1"] = inl (HTTPStatusError 500)
      /\ on_new_session refused down last_one = last_one).
Proof.
  destruct client_keeps_a_session
    as (_ & Hfail & _ & Hempty & _ & Hdel & Hlast & Hnew & _
        & Hkept & Hraised & Hrest & _ & Hnofresh).
  split; [apply Hfail; left; lia|].
  split; [apply Hempty; reflexivity|].
  split; [apply (Hlast 200%Z "" _ "n1" "s1"); [reflexivity | by vm_compute
                                               | reflexivity | reflexivity]|].
  split; [apply Hdel; by vm_compute|].
  split; [apply Hnew; by vm_compute|].
  split; [apply (Hkept 200%Z "" (HttpResponse 500 SessionNotJSON)
                   (HTTPStatusError 500) "s1"
                   (Page (Dropdown ["s1"] (Some "s1")) ["s1"] [] ""));
          [reflexivity | by vm_compute | reflexivity | reflexivity]|].
  split; [apply (Hraised (Exn "ConnectError" "") (HttpResponse 200 (SessionKey "n1"))
                   "s1" (Page (Dropdown ["s1"] (Some "s1")) ["s1"] [] ""));
          [reflexivity | by vm_compute]|].
  split; [apply (Hrest 500%Z "no" (HttpResponse 200 (SessionKey "n1")) "s1"
                   (Page (Dropdown ["s1"; "s2"] (Some "s1")) ["s1"; "s2"] [] ""));
          [reflexivity | by vm_compute | by vm_compute]|].
  apply (Hnofresh (HttpResponse 500 SessionNotJSON)
           (HttpResponse 503 SessionsNotJSON) (HTTPStatusError 500)
           (Page (Dropdown ["s1"] (Some "s1")) ["s1"] [] "")).
  reflexivity.
Defined.

End ClientSessions.

(** ** Worked examples *)

Section Examples.

Import History Backend UI.

Example strip_hello : PyStr.strip "  Hello  " = "Hello".
Proof. reflexivity. Qed.

Example strip_keeps_inner_space : PyStr.strip " a b " = "a b".
Proof. reflexivity. Qed.

Example strip_blank : PyStr.strip (String "009" (String "010" " ")) = "".
Proof. reflexivity. Qed.

Example str_of_400 : PyStr.str_of_Z 400 = "400".
Proof. reflexivity. Qed.

Example newline_code : nat_of_ascii "010" = 10%nat.
Proof. reflexivity. Qed.

(** The exchange of [test_chat], with the doubles the test installs: the
    fake chain answers ["test message"] with three chunks, and the log then
    holds the question and the whole reply. *)
Example test_chat_exchange :
  let body := {| session_id := "s"; user_message := "test message" |} in
  let '(reply, st) := post_chat FakeHistoryWrapper FakeStreamChain body fresh in
  (match reply with
   | Streamed code r => (code, fragments r, outcome r)
   | Rejected code _ => (code, [], None)
   end) = (200%Z, ["HEL"; "LO: "; "test message"], None)
  /\ read_history "s" st
     = [MsgOut "user" "test message"; MsgOut "assistant" "HELLO: test message"]
  /\ engine_calls st = [("s", ChatInputs SYSTEM_PROMPT "test message")]
  /\ chains_built st = 1%nat.
Proof. by vm_compute. Qed.

(** A provider that fails after one chunk, under the double of the tests:
    the chunk and the diagnostic are streamed, and the log holds the
    question, which the double stores before it streams. *)
Example failing_exchange :
  let body := {| session_id := "s"; user_message := "Hi" |} in
  let flaky : chain :=
    fun _ _ => ProviderStream ["par"] (Some (Exn "TimeoutError" "late")) in
  let '(reply, st) := post_chat FakeHistoryWrapper flaky body fresh in
  (match reply with
   | Streamed _ r => fragments r
   | Rejected _ _ => []
   end) = ["par"; provider_failed (Exn "TimeoutError" "late")]
  /\ read_history "s" st = [MsgOut "user" "Hi"].
Proof. by vm_compute. Qed.

(** With the double of the tests, an empty session id is kept under the key
    ["default"]. *)
Example blank_session_id :
  let body := {| session_id := "  "; user_message := "Hi" |} in
  read_history "default" (post_chat FakeHistoryWrapper FakeStreamChain body fresh).2
  = [MsgOut "user" "Hi"; MsgOut "assistant" "HELLO: Hi"].
Proof. by vm_compute. Qed.

(** A backend error on send replaces the bubble's text by the error line. *)
Example send_to_failing_backend :
  shown (handle_message_send
           (fun _ _ => StreamResponse 500 (inr "oops") [] None)
           (Some "abc") (Some "Hi") None)
  = [SetTo [("Hi", "[ERROR] Backend returned 500: oops")]].
Proof. reflexivity. Qed.

(** Nothing is sent, and nothing is redrawn, for a blank message. *)
Example send_blank :
  handle_message_send (fun _ _ => StreamRaised (Exn "E" "")) (Some "abc") (Some " ")
    (Some [("a", "b")])
  = UiRun [NoChange] None.
Proof. reflexivity. Qed.

(** Deleting one of two sessions selects the other. *)
Example delete_one_of_two :
  session_dropdown
    (on_delete (HttpResponse 200 "") (HttpRaised (Exn "E" ""))
       (Page (Dropdown ["s1"; "s2"] (Some "s1")) ["s1"; "s2"] [("q", "a")] ""))
  = Dropdown ["s2"] (Some "s2").
Proof. by vm_compute. Qed.

End Examples.

(** * Further properties of the orchestrator *)

Section Registry.

Import History Backend.

Lemma filter_ne_snoc (a : string) (l : list string) :
  a ∉ l -> filter (fun c => c <> a) (l ++ [a])%list = l.
Proof.
  intros Ha. rewrite filter_app, filter_cons, decide_False by (by intros []).
  rewrite filter_nil, app_nil_r.
  induction l as [|x l IH]; [done|].
  apply not_elem_of_cons in Ha as [Hx Hl].
  rewrite filter_cons, decide_True by done. by rewrite IH.
Qed.

Lemma create_new_session_fresh (a : string) (st : state) :
  a ∉ chat_sessions st ->
  create_new_session a st
  = Some (a, set_chat_sessions (chat_sessions st ++ [a])%list st).
Proof.
  intros Ha. unfold create_new_session. by rewrite bool_decide_eq_false_2.
Qed.

(** X1. Two sessions created one after the other under unused, distinct
    ids are both accepted; [GET /sessions] then returns the earlier ids and
    the two new ones, each once and nothing else (in whatever order the
    rows come), no log has changed, and a further creation under the first
    id is refused by the table. *)
Theorem create_two_sessions_listed (a b : string) (st : state) :
  a ∉ chat_sessions st ->
  b ∉ chat_sessions st ->
  a <> b ->
  exists st1 st2,
    create_new_session a st = Some (a, st1)
    /\ create_new_session b st1 = Some (b, st2)
    /\ (list_all_sessions st2).1 ≡ₚ a :: b :: chat_sessions st
    /\ (forall x, x ∈ (list_all_sessions st2).1
                  <-> x = a \/ x = b \/ x ∈ chat_sessions st)
    /\ STORE st2 = STORE st
    /\ create_new_session a st2 = None.
Proof.
  intros Ha Hb Hab. eexists _, _.
  split; [by apply create_new_session_fresh|].
  split.
  { apply create_new_session_fresh. cbn [chat_sessions set_chat_sessions].
    rewrite elem_of_app, list_elem_of_singleton. by intros [?|?]. }
  assert (Hperm : ((chat_sessions st ++ [a]) ++ [b])%list
                  ≡ₚ a :: b :: chat_sessions st).
  { rewrite <- (assoc_L (++)%list). cbn [app].
    by rewrite (comm (++)%list (chat_sessions st) [a; b]). }
  split_and!.
  - exact Hperm.
  - intros x. cbn [list_all_sessions fst chat_sessions set_chat_sessions].
    rewrite Hperm, !elem_of_cons. tauto.
  - reflexivity.
  - unfold create_new_session. rewrite bool_decide_eq_true_2; [done|].
    cbn [chat_sessions set_chat_sessions].
    rewrite !elem_of_app, list_elem_of_singleton. by left; right.
Qed.

Lemma create_two_sessions_listed_witness :
  exists st1 st2,
    create_new_session "b" fresh = Some ("b", st1)
    /\ create_new_session "a" st1 = Some ("a", st2)
    /\ (list_all_sessions st2).1 ≡ₚ ["b"; "a"]
    /\ (forall x, x ∈ (list_all_sessions st2).1
                  <-> x = "b" \/ x = "a" \/ x ∈ chat_sessions fresh)
    /\ STORE st2 = STORE fresh
    /\ create_new_session "b" st2 = None.
Proof.
  apply (create_two_sessions_listed "b" "a" fresh);
    [apply not_elem_of_nil | apply not_elem_of_nil | discriminate].
Defined.

(** X2. Creating a session under an unused id and deleting it again gives
    the registry its earlier rows back, in their order, and leaves the id
    with an empty history. *)
Theorem create_then_delete_restores_registry (a : string) (st : state) :
  a ∉ chat_sessions st ->
  exists st1 st2,
    create_new_session a st = Some (a, st1)
    /\ clear_session_history a st1 = Some (Cleared "cleared" a, st2)
    /\ chat_sessions st2 = chat_sessions st
    /\ read_history a st2 = [].
Proof.
  intros Ha. eexists _, _.
  split; [by apply create_new_session_fresh|].
  split; [apply clear_session_history_eq|]. split.
  - cbn [chat_sessions set_chat_sessions set_STORE]. by apply filter_ne_snoc.
  - rewrite read_history_eq. by read_log.
Qed.

Lemma create_then_delete_restores_registry_witness :
  let st := State ["s1"; "s2"] ∅ 0 [] in
  exists st1 st2,
    create_new_session "n" st = Some ("n", st1)
    /\ clear_session_history "n" st1 = Some (Cleared "cleared" "n", st2)
    /\ chat_sessions st2 = ["s1"; "s2"]
    /\ read_history "n" st2 = [].
Proof.
  apply (create_then_delete_restores_registry "n" (State ["s1"; "s2"] ∅ 0 [])).
  cbn. rewrite !elem_of_cons, elem_of_nil. by intros [?|[?|[]]].
Defined.

(** X3. Deleting session [S] removes the rows equal to [S] and no other:
    every other id keeps its row, the remaining rows keep their order, and
    the history of a session stored under another key is returned as
    before; the completion engine is not touched. *)
Theorem delete_leaves_other_sessions (S : string) (st : state) :
  exists st1,
    clear_session_history S st = Some (Cleared "cleared" S, st1)
    /\ chat_sessions st1 = filter (fun c => c <> S) (chat_sessions st)
    /\ (forall S', S' <> S -> S' ∈ chat_sessions st1 <-> S' ∈ chat_sessions st)
    /\ (forall S', handle_sid S' <> handle_sid S ->
                   read_history S' st1 = read_history S' st)
    /\ engine_calls st1 = engine_calls st
    /\ chains_built st1 = chains_built st.
Proof.
  eexists. split; [apply clear_session_history_eq|].
  split; [reflexivity|]. split; [|split; [|done]].
  - intros S' Hne. cbn [chat_sessions set_chat_sessions set_STORE].
    rewrite list_elem_of_filter. split; [by intros [_ ?] | by intros ?].
  - intros S' Hne. rewrite !read_history_eq. f_equal.
    unfold history_of. cbn [STORE set_chat_sessions set_STORE].
    by apply aget_insert_ne.
Qed.

(** X8. [GET /session/S/history] is a read: although building the handle
    may add an empty entry to the store, afterwards the registry rows, the
    engine counters and the history returned for every session are what
    they were, and asking again gives the same answer without any further
    change. *)
Theorem get_history_is_read_only (S : string) (st : state) :
  let st' := (get_history S st).2 in
  chat_sessions st' = chat_sessions st
  /\ engine_calls st' = engine_calls st
  /\ chains_built st' = chains_built st
  /\ (forall S', read_history S' st' = read_history S' st)
  /\ get_history S st' = ((get_history S st).1, st').
Proof.
  cbv zeta. rewrite get_history_eq. cbn [snd fst]. split_and!; [done..| |].
  - intros S'. rewrite !read_history_eq. f_equal. by read_log.
  - rewrite get_history_eq. f_equal.
    + f_equal. f_equal. by read_log.
    + unfold set_STORE.
      cbn [chat_sessions STORE chains_built engine_calls]. f_equal.
      unfold setdefault at 1. by rewrite lookup_setdefault.
Qed.

End Registry.

Section Streaming.

Import History Backend.

Lemma join_app (l1 l2 : list string) :
  PyStr.join (l1 ++ l2)%list = PyStr.join l1 ++ PyStr.join l2.
Proof.
  induction l1 as [|s l1 IH]; cbn [PyStr.join app]; [done|].
  by rewrite IH, string_app_assoc.
Qed.

Lemma provider_failed_nonempty (e : exn) : provider_failed e <> "".
Proof. unfold provider_failed. by rewrite string_app_cons. Qed.

Lemma gen_loop_nonempty (ys : list (chunk * state)) :
  Forall (fun y => y.1 <> "") (gen_loop ys).
Proof.
  induction ys as [|[c st] ys IH]; cbn [gen_loop]; [constructor|].
  destruct (PyStr.truthy (chunk_text c)) eqn:Ht; [|exact IH].
  constructor; [by apply truthy_true_iff | exact IH].
Qed.

(** X6. Whatever the history-aware runnable yields and however its stream
    ends, no fragment of the response body is empty: chunks with empty text
    (an empty string, an object whose [content] is empty or missing) are not
    relayed, and the diagnostic fragment is not empty either. *)
Theorem gen_never_yields_empty (src : run chunk) :
  Forall (fun s => s <> "") (fragments (gen src)).
Proof.
  unfold fragments, gen. apply Forall_fmap.
  destruct (outcome src) as [e|]; cbn [yields].
  - apply Forall_app. split; [apply gen_loop_nonempty|].
    constructor; [apply provider_failed_nonempty | constructor].
  - apply gen_loop_nonempty.
Qed.

(** X7. The text of the response body, that is the concatenation of the
    fragments in order, is the concatenation of the texts of all chunks the
    runnable yielded, followed by the diagnostic text when the stream
    raised: skipping empty chunks loses no text. *)
Theorem gen_body_is_concatenation (src : run chunk) :
  PyStr.join (fragments (gen src))
  = PyStr.join (chunk_text <$> fragments src)
    ++ match outcome src with
       | Some e => provider_failed e
       | None => ""
       end.
Proof.
  unfold fragments, gen. destruct (outcome src) as [e|]; cbn [yields].
  - rewrite fmap_app, join_app, gen_loop_fragments, join_filter_nonempty.
    cbn [fmap list_fmap fst PyStr.join]. by rewrite string_app_nil_r.
  - by rewrite gen_loop_fragments, join_filter_nonempty, string_app_nil_r.
Qed.

(** The state in which the repository's runnable stops: the session's log
    has grown by the user's message and, after a normal end only, by the
    reply; one call of the chain is on record; nothing else has changed. *)
Lemma final_of_wrapper (c : chain) (inputs : chat_inputs) (sid : string)
    (st : state) :
  final (FakeHistoryWrapper c inputs sid st)
  = State (chat_sessions st)
      (<[handle_sid sid :=
           (aget_messages (handle_sid sid) (STORE st)
            ++ Message HumanMessage (input inputs)
               :: match failure (c inputs sid) with
                  | Some _ => []
                  | None => [Message AIMessage (PyStr.join (chunks (c inputs sid)))]
                  end)%list]> (STORE st))
      (chains_built st)
      (engine_calls st ++ [(sid, inputs)])%list.
Proof.
  rewrite FakeHistoryWrapper_eq. cbv zeta.
  destruct (failure (c inputs sid)); cbn [final]; [done|].
  unfold set_STORE, note_call.
  cbn [chat_sessions STORE chains_built engine_calls].
  by rewrite <- (assoc_L (++)%list).
Qed.

(** X4. A chat exchange, accepted or rejected, completed or failed, never
    touches the session registry and only ever appends to a log: the
    history returned for any session before the exchange is a prefix of the
    one returned after it, and for a session stored under another key the
    two are equal. In particular a chat on an id without a row records
    messages without creating the row. *)
Theorem chat_only_appends (c : chain) (body : ChatIn) (st : state) :
  let st' := (post_chat FakeHistoryWrapper c body st).2 in
  chat_sessions st' = chat_sessions st
  /\ (forall S', exists new, read_history S' st' = (read_history S' st ++ new)%list)
  /\ (forall S', handle_sid S' <> handle_sid (PyStr.strip (session_id body)) ->
                 read_history S' st' = read_history S' st).
Proof.
  cbv zeta.
  destruct (decide (PyStr.strip (user_message body) = "")) as [Hblank|Hmsg].
  { unfold post_chat, chat. rewrite Hblank. cbn [PyStr.truthy negb snd].
    split_and!; [done | | done].
    intros S'. exists []. by rewrite app_nil_r. }
  rewrite chat_accepts by done. cbv zeta. cbn [snd].
  rewrite final_gen, final_of_wrapper.
  set (sid := PyStr.strip (session_id body)).
  split_and!; [done | |].
  - intros S'. rewrite !read_history_eq. unfold history_of.
    cbn [STORE note_build].
    destruct (decide (handle_sid sid = handle_sid S')) as [<-|Hne].
    + rewrite aget_insert, fmap_app. eauto.
    + rewrite aget_insert_ne by done. exists []. by rewrite app_nil_r.
  - intros S' Hne. rewrite !read_history_eq. unfold history_of.
    cbn [STORE note_build]. by rewrite aget_insert_ne.
Qed.



(** X9. An accepted exchange builds one chain and starts the chain's stream
    exactly once, whether or not the stream then fails; the chain is given
    the fixed system prompt and the trimmed message, under the trimmed
    session id. *)
Theorem chat_calls_engine_once (c : chain) (body : ChatIn) (st : state) :
  let sid := PyStr.strip (session_id body) in
  let user_msg := PyStr.strip (user_message body) in
  user_msg <> "" ->
  let st' := (post_chat FakeHistoryWrapper c body st).2 in
  engine_calls st'
  = (engine_calls st ++ [(sid, ChatInputs SYSTEM_PROMPT user_msg)])%list
  /\ chains_built st' = S (chains_built st).
Proof.
  intros sid user_msg Hmsg. cbv zeta.
  rewrite chat_accepts by exact Hmsg. cbv zeta. cbn [snd].
  by rewrite final_gen, final_of_wrapper.
Qed.

Lemma chat_calls_engine_once_witness :
  let body := {| session_id := " abc "; user_message := " Hello " |} in
  let st' := (post_chat FakeHistoryWrapper FakeStreamChain body fresh).2 in
  engine_calls st' = [("abc", ChatInputs SYSTEM_PROMPT "Hello")]
  /\ chains_built st' = 1%nat.
Proof.
  apply (chat_calls_engine_once FakeStreamChain
           {| session_id := " abc "; user_message := " Hello " |} fresh).
  by vm_compute.
Defined.

End Streaming.

(** * Further properties of the client *)

Section Conversation.

Import UI.

Lemma or_default_empty (s : string) : PyStr.or_default s "" = s.
Proof. by destruct s. Qed.

Lemma pair_loop_app (l1 l2 : list json_message) (acc : chat_pairs)
    (lu : option string) :
  pair_loop (l1 ++ l2) acc lu
  = pair_loop l2 (pair_loop l1 acc lu).1 (pair_loop l1 acc lu).2.
Proof.
  revert acc lu. induction l1 as [|m l1 IH]; intros acc lu; [done|].
  cbn [app pair_loop]. repeat case_bool_decide; apply IH.
Qed.

Lemma pair_loop_turns (turns : chat_pairs) (acc : chat_pairs) :
  pair_loop (log_of_turns turns) acc None = ((acc ++ turns)%list, None).
Proof.
  revert acc. induction turns as [|[u a] turns IH]; intros acc.
  - by rewrite app_nil_r.
  - unfold log_of_turns. cbn [fmap list_fmap concat app fst snd].
    fold (log_of_turns turns). cbn [pair_loop user_entry assistant_entry j_role j_content].
    rewrite bool_decide_eq_true_2 by done.
    rewrite bool_decide_eq_false_2 by done.
    rewrite bool_decide_eq_true_2 by done.
    change (default "" (Some u)) with u. change (default "" (Some a)) with a.
    rewrite or_default_empty, IH. by rewrite <- (assoc_L (++)%list).
Qed.

(** X10. The conversion of a message list to chat pairs inverts the layout
    of a log made of whole turns: a log of [user], [assistant] pairs gives
    back exactly the turns, in order, and the same log followed by one more
    [user] message gives the turns followed by that message with an empty
    reply. *)
Theorem to_chat_pairs_of_turns (turns : chat_pairs) (u : string) :
  to_chat_pairs (log_of_turns turns) = turns
  /\ to_chat_pairs (log_of_turns turns ++ [user_entry u]) = (turns ++ [(u, "")])%list.
Proof.
  unfold to_chat_pairs. split.
  - by rewrite pair_loop_turns.
  - rewrite pair_loop_app, pair_loop_turns. cbn [fst snd pair_loop user_entry j_role j_content].
    by rewrite bool_decide_eq_true_2 by done.
Qed.

Lemma pair_loop_replies (msgs : list json_message) (acc : chat_pairs)
    (lu : option string) :
  (pair_loop msgs acc lu).1.*2 = (acc.*2 ++ assistant_texts msgs)%list.
Proof.
  revert acc lu. unfold assistant_texts.
  induction msgs as [|m msgs IH]; intros acc lu.
  - cbn. by rewrite app_nil_r.
  - cbn [pair_loop]. rewrite filter_cons.
    case_bool_decide as Hu.
    + rewrite decide_False by (rewrite Hu; discriminate). apply IH.
    + case_bool_decide as Ha.
      * rewrite decide_True by done. rewrite IH, fmap_app.
        cbn [fmap list_fmap snd]. by rewrite <- (assoc_L (++)%list).
      * rewrite decide_False by done. apply IH.
Qed.

(** X11. No reply is lost or reordered by the conversion: the assistant
    sides of the chat pairs are the texts of the ["assistant"] messages, in
    order, followed by at most one empty reply (the one of a trailing
    unanswered question). *)
Theorem to_chat_pairs_replies (msgs : list json_message) :
  (to_chat_pairs msgs).*2 = assistant_texts msgs
  \/ (to_chat_pairs msgs).*2 = (assistant_texts msgs ++ [""])%list.
Proof.
  unfold to_chat_pairs.
  pose proof (pair_loop_replies msgs [] None) as H.
  destruct (pair_loop msgs [] None) as [ps [u|]]; cbn [fst] in H.
  - right. rewrite fmap_app. by rewrite H.
  - by left.
Qed.

Lemma pair_loop_spoken (msgs : list json_message) (acc : chat_pairs)
    (lu : option string) :
  pair_loop (filter spoken msgs) acc lu = pair_loop msgs acc lu.
Proof.
  revert acc lu. induction msgs as [|m msgs IH]; intros acc lu; [done|].
  rewrite filter_cons. unfold spoken at 1. cbn [pair_loop].
  destruct (decide _) as [Hs|Hs]; cbn [pair_loop].
  - repeat case_bool_decide; apply IH.
  - rewrite !bool_decide_eq_false_2 by tauto. apply IH.
Qed.

(** X12. Messages that are tagged neither ["user"] nor ["assistant"]
    (["system"], ["unknown"], a missing role) do not show in the
    conversation and do not change how the others are paired. *)
Theorem to_chat_pairs_ignores_other_roles (msgs : list json_message) :
  to_chat_pairs (filter spoken msgs) = to_chat_pairs msgs.
Proof. unfold to_chat_pairs. by rewrite pair_loop_spoken. Qed.

(** X13. Of two ["user"] messages in a row only the second is shown: the
    first one, a question that got no answer, is dropped from the
    conversation. *)
Theorem to_chat_pairs_drops_unanswered (l1 l2 : list json_message)
    (m1 m2 : json_message) :
  j_role m1 = Some "user" ->
  j_role m2 = Some "user" ->
  to_chat_pairs (l1 ++ m1 :: m2 :: l2) = to_chat_pairs (l1 ++ m2 :: l2).
Proof.
  intros H1 H2. unfold to_chat_pairs. rewrite !pair_loop_app.
  cbn [pair_loop]. by rewrite !bool_decide_eq_true_2 by done.
Qed.

Lemma to_chat_pairs_drops_unanswered_witness :
  to_chat_pairs [user_entry "q1"; user_entry "q2"; assistant_entry "a2"]
  = [("q2", "a2")].
Proof.
  exact (to_chat_pairs_drops_unanswered [] [assistant_entry "a2"]
           (user_entry "q1") (user_entry "q2") eq_refl eq_refl).
Defined.

End Conversation.

Section Sending.

Import UI.

(** What [handle_message_send] yields for a message that is not blank:
    one chatbot value per text of [get_streaming_response], each the earlier
    conversation followed by the new bubble with that text. *)
Lemma handle_message_send_eq (post : string -> string -> stream_reply)
    (current_session_id user_msg : option string) (chat_history : option chat_pairs) :
  let sid := PyStr.strip (PyStr.or_default (default "" current_session_id) "default") in
  let msg := PyStr.strip (default "" user_msg) in
  msg <> "" ->
  handle_message_send post current_session_id user_msg chat_history
  = UiRun ((fun t => SetTo (default [] chat_history ++ [(msg, t)])%list)
             <$> shown (get_streaming_response post sid msg))
          (ui_outcome (get_streaming_response post sid msg)).
Proof.
  intros sid msg Hmsg. unfold handle_message_send. fold sid msg.
  apply truthy_true_iff in Hmsg. rewrite Hmsg. cbn [negb].
  by rewrite send_loop_eq.
Qed.

(** X14. A message that is missing, empty or made of white space only is
    not sent: whatever the backend would answer, the handler yields a single
    no-change update and returns, and the conversation on screen stays as it
    is. *)
Theorem send_blank_never_posts (post : string -> string -> stream_reply)
    (current_session_id user_msg : option string) (chat_history : option chat_pairs) :
  PyStr.all_space (default "" user_msg) = true ->
  handle_message_send post current_session_id user_msg chat_history
  = UiRun [NoChange] None.
Proof.
  intros Hblank. apply strip_empty_iff in Hblank.
  unfold handle_message_send. by rewrite Hblank.
Qed.

Lemma send_blank_never_posts_witness :
  handle_message_send (fun _ _ => StreamResponse 200 (inr "") ["x"] None)
    (Some "abc") None (Some [("q", "a")])
  = UiRun [NoChange] None
  /\ handle_message_send (fun _ _ => StreamRaised (Exn "ConnectError" ""))
       None (Some (String "009" " ")) None
     = UiRun [NoChange] None.
Proof.
  split.
  - apply (send_blank_never_posts
             (fun _ _ => StreamResponse 200 (inr "") ["x"] None)
             (Some "abc") None (Some [("q", "a")])).
    reflexivity.
  - apply (send_blank_never_posts (fun _ _ => StreamRaised (Exn "ConnectError" ""))
             None (Some (String "009" " ")) None).
    reflexivity.
Defined.

(** X15. Whatever the backend answers to a message that is not blank (a
    stream, an error status, a failed connection, a stream that breaks),
    every chatbot value the handler yields is the earlier conversation,
    unchanged, followed by one bubble whose user side is the trimmed
    message: earlier bubbles are never altered or removed. *)
Theorem send_keeps_earlier_bubbles (post : string -> string -> stream_reply)
    (current_session_id user_msg : option string) (chat_history : option chat_pairs) :
  let msg := PyStr.strip (default "" user_msg) in
  msg <> "" ->
  Forall (fun u => exists t, u = SetTo (default [] chat_history ++ [(msg, t)])%list)
    (shown (handle_message_send post current_session_id user_msg chat_history)).
Proof.
  intros msg Hmsg. rewrite handle_message_send_eq by exact Hmsg.
  cbn [shown]. apply Forall_fmap, Forall_forall. intros t _. by exists t.
Qed.

Lemma send_keeps_earlier_bubbles_witness :
  Forall (fun u => exists t, u = SetTo [("q", "a"); ("Hi", t)])
    (shown (handle_message_send
              (fun _ _ => StreamResponse 200 (inr "") ["He"; "y"]
                            (Some (Exn "ReadError" "reset")))
              (Some "abc") (Some " Hi ") (Some [("q", "a")]))).
Proof.
  apply (send_keeps_earlier_bubbles
           (fun _ _ => StreamResponse 200 (inr "") ["He"; "y"]
                         (Some (Exn "ReadError" "reset")))
           (Some "abc") (Some " Hi ") (Some [("q", "a")])).
  by vm_compute.
Defined.

(** X16. When the body of a successful response breaks after some chunks,
    the handler first shows the cumulative texts of those chunks and then
    one last value in which the reply is the network error line alone: the
    partial reply is replaced on screen, and the handler returns without
    raising. *)
Theorem send_broken_stream_shows_error (post : string -> string -> stream_reply)
    (current_session_id user_msg : option string) (chat_history : option chat_pairs)
    (code : Z) (text : exn + string) (fs : list string) (e : exn) :
  let sid := PyStr.strip (PyStr.or_default (default "" current_session_id) "default") in
  let msg := PyStr.strip (default "" user_msg) in
  msg <> "" ->
  post (PyStr.or_default sid "default") msg = StreamResponse code text fs (Some e) ->
  is_success code = true ->
  let r := handle_message_send post current_session_id user_msg chat_history in
  ui_outcome r = None
  /\ shown r
     = (((fun t => SetTo (default [] chat_history ++ [(msg, t)])%list) <$> cumulative fs)
        ++ [SetTo (default [] chat_history ++ [(msg, network_error e)])%list])%list
  /\ last_reply <$> last (shown r) = Some (Some (network_error e)).
Proof.
  intros sid msg Hmsg Hpost Hcode r. subst r.
  rewrite handle_message_send_eq by exact Hmsg. fold sid msg.
  unfold get_streaming_response. rewrite Hpost, Hcode.
  cbn [shown ui_outcome]. rewrite combine_loop_cumulative.
  split_and!; [done | by rewrite fmap_app |].
  rewrite fmap_last, last_snoc. cbn. by rewrite last_snoc.
Qed.

Lemma send_broken_stream_shows_error_witness :
  let post : string -> string -> stream_reply :=
    fun _ _ => StreamResponse 200 (inr "") ["Once "; "upon"]
                 (Some (Exn "ReadError" "reset")) in
  let r := handle_message_send post (Some "abc") (Some "Tell") None in
  ui_outcome r = None
  /\ shown r = [SetTo [("Tell", "Once ")]; SetTo [("Tell", "Once upon")];
                SetTo [("Tell", "[ERROR] Network/client error: reset")]]
  /\ last_reply <$> last (shown r)
     = Some (Some "[ERROR] Network/client error: reset").
Proof.
  apply (send_broken_stream_shows_error
           (fun _ _ => StreamResponse 200 (inr "") ["Once "; "upon"]
                         (Some (Exn "ReadError" "reset")))
           (Some "abc") (Some "Tell") None 200 (inr "") ["Once "; "upon"]
           (Exn "ReadError" "reset"));
    [by vm_compute | reflexivity | reflexivity].
Defined.

Lemma last_combine_loop (acc : string) (fs : list string) :
  last (combine_loop acc fs)
  = match fs with
    | [] => None
    | _ :: _ => Some (acc ++ PyStr.join fs)
    end.
Proof.
  revert acc. induction fs as [|f fs IH]; intros acc; [done|].
  cbn [combine_loop]. rewrite last_cons, IH.
  destruct fs as [|g fs]; cbn [PyStr.join];
    [by rewrite string_app_nil_r | by rewrite string_app_assoc].
Qed.

(** X17. On a successful response whose body ends normally the last value
    shown is the earlier conversation followed by the message and the whole
    body text, so it does not depend on how the body was cut into chunks;
    when the body has no chunk at all nothing is shown, not even the user's
    message. *)
Theorem send_final_render_is_whole_body (post : string -> string -> stream_reply)
    (current_session_id user_msg : option string) (chat_history : option chat_pairs)
    (code : Z) (text : exn + string) (fs : list string) :
  let sid := PyStr.strip (PyStr.or_default (default "" current_session_id) "default") in
  let msg := PyStr.strip (default "" user_msg) in
  msg <> "" ->
  post (PyStr.or_default sid "default") msg = StreamResponse code text fs None ->
  is_success code = true ->
  last (shown (handle_message_send post current_session_id user_msg chat_history))
  = match fs with
    | [] => None
    | _ :: _ => Some (SetTo (default [] chat_history ++ [(msg, PyStr.join fs)])%list)
    end.
Proof.
  intros sid msg Hmsg Hpost Hcode.
  rewrite handle_message_send_eq by exact Hmsg. fold sid msg.
  unfold get_streaming_response. rewrite Hpost, Hcode.
  cbn [shown]. rewrite fmap_last, last_combine_loop.
  by destruct fs.
Qed.

Lemma send_final_render_is_whole_body_witness :
  last (shown (handle_message_send
                 (fun _ _ => StreamResponse 200 (inr "") ["HE"; "L"; "LO"] None)
                 (Some "abc") (Some "Hi") None))
  = Some (SetTo [("Hi", "HELLO")])
  /\ shown (handle_message_send (fun _ _ => StreamResponse 200 (inr "") [] None)
              (Some "abc") (Some "Hi") None)
     = [].
Proof.
  split.
  - apply (send_final_render_is_whole_body
             (fun _ _ => StreamResponse 200 (inr "") ["HE"; "L"; "LO"] None)
             (Some "abc") (Some "Hi") None 200 (inr "") ["HE"; "L"; "LO"]);
      [by vm_compute | reflexivity | reflexivity].
  - reflexivity.
Defined.

End Sending.

Section Sessions.

Import UI.

(** X18. A history that cannot be loaded looks like an empty one: when the
    selected id is blank (then no request is made), when the request raises,
    when the status is not a success, when the body is not the expected
    JSON, lacks the list or holds an empty list, [load_chat_history] returns
    no pair and the session-change handler empties the chatbot and reports
    "No history for session ...". *)
Theorem load_failure_looks_empty (get : string -> http_reply history_body)
    (selected : option string) (current : chat_pairs) :
  let id := PyStr.strip (default "" selected) in
  id = ""
  \/ (exists e, get id = HttpRaised e)
  \/ (exists code b,
        get id = HttpResponse code b
        /\ (is_success code = false \/ b = HistoryNotJSON
            \/ b = HistoryData None \/ b = HistoryData (Some []))) ->
  load_chat_history get selected = []
  /\ handle_session_change get selected current
     = (SetTo [], "No history for session " ++ format_opt selected ++ ".").
Proof.
  intros id H.
  assert (Hload : load_chat_history get selected = []).
  { unfold load_chat_history. fold id.
    destruct H as [->|[[e ->]|(code & b & -> & Hb)]].
    - done.
    - by destruct (negb _).
    - destruct (negb _); [done|].
      destruct (is_success code); [|done].
      by destruct Hb as [?|[->|[->| ->]]]. }
  split; [exact Hload|].
  unfold handle_session_change. by rewrite Hload.
Qed.

Lemma load_failure_looks_empty_witness :
  let down : string -> http_reply history_body :=
    fun _ => HttpResponse 503 HistoryNotJSON in
  load_chat_history down (Some "abc") = []
  /\ handle_session_change down (Some "abc") [("q", "a")]
     = (SetTo [], "No history for session abc.").
Proof.
  apply (load_failure_looks_empty (fun _ => HttpResponse 503 HistoryNotJSON)
           (Some "abc") [("q", "a")]).
  right. right. exists 503%Z, HistoryNotJSON. split; [reflexivity | by left].
Defined.

Lemma dispatch_consistent (r : exn + outputs) (p : page) :
  consistent p ->
  (forall o, r = inr o ->
     (out_dropdown o = NoChange /\ out_choices o = choices_state p)
     \/ exists v, out_dropdown o = SetTo (Dropdown (out_choices o) (Some v))
                  /\ v ∈ out_choices o) ->
  consistent (dispatch r p).
Proof.
  intros Hp Ho. destruct r as [e|o]; [exact Hp|].
  destruct (Ho o eq_refl) as [[Hd Hc]|(v & Hd & Hv)];
    unfold consistent, dispatch; cbn [session_dropdown choices_state];
    rewrite Hd; cbn [apply_update choices value].
  - rewrite Hc. exact Hp.
  - split; [done|]. by intros ? [= <-].
Qed.

(** X19. On every page the session handlers can produce, the dropdown and
    the stored list of choices hold the same sessions and the selected
    session, if any, is one of them: this holds for the page as built and is
    kept by the load, new-session, delete and session-change events,
    whatever the backend answers and also when a handler raises. *)
Theorem page_stays_consistent :
  consistent initial_page
  /\ (forall lr cr p, consistent p -> consistent (on_load lr cr p))
  /\ (forall cr lr p, consistent p -> consistent (on_new_session cr lr p))
  /\ (forall dr cr p, consistent p -> consistent (on_delete dr cr p))
  /\ (forall get p, consistent p -> consistent (on_session_change get p)).
Proof.
  split_and!.
  - split; [done|]. by intros v [=].
  - intros lr cr p Hp. apply dispatch_consistent; [exact Hp|].
    intros o Ho. right. unfold init_sessions in Ho.
    destruct (negb _).
    + destruct (get_available_sessions lr) as [|s l]; [done|].
      injection Ho as <-. exists s. split; [done | apply list_elem_of_here].
    + destruct (create_session cr) as [e|new]; [done|].
      injection Ho as <-. exists new. split; [done | apply list_elem_of_here].
  - intros cr lr p Hp. apply dispatch_consistent; [exact Hp|].
    intros o Ho. right. unfold handle_new_chat_click in Ho.
    destruct (create_session cr) as [e|new]; [done|].
    injection Ho as <-. exists new. split; [done|]. cbn [out_choices].
    case_bool_decide; [done|]. apply elem_of_app. right. apply list_elem_of_here.
  - intros dr cr p Hp. apply dispatch_consistent; [exact Hp|].
    intros o Ho. unfold handle_session_deletion in Ho.
    destruct (negb _).
    { injection Ho as <-. by left. }
    destruct dr as [e|code text]; [done|].
    destruct (bool_decide _).
    + destruct (create_session cr) as [e|new]; [done|].
      injection Ho as <-. right. exists new. split; [done | apply list_elem_of_here].
    + destruct (filter _ _) as [|c l]; [done|].
      injection Ho as <-. right. exists c. split; [done | apply list_elem_of_here].
  - intros get p Hp. unfold on_session_change, handle_session_change. exact Hp.
Qed.

(** X20. When the creation call succeeds, the new-session handler selects
    the new session and lists it exactly once after the sessions the list
    call returned (the fallback ["default"] when that call failed), in their
    order; it adds it at the end only if the list does not hold it already;
    and the chatbot is emptied. *)
Theorem new_session_is_selected (cr : http_reply session_body)
    (lr : http_reply sessions_body) (p : page) (new : string) :
  create_session cr = inr new ->
  let l := get_available_sessions lr in
  let p' := on_new_session cr lr p in
  value (session_dropdown p') = Some new
  /\ (new ∈ selectable p')
  /\ selectable p' = (l ++ if bool_decide (new ∈ l) then [] else [new])%list
  /\ choices_state p' = selectable p'
  /\ chat_box p' = [].
Proof.
  intros Hnew l p'. subst p'.
  unfold on_new_session, handle_new_chat_click. rewrite Hnew. fold l.
  unfold selectable, dispatch.
  cbn [out_dropdown out_choices out_chat apply_update session_dropdown
       choices value choices_state chat_box].
  case_bool_decide as Hin; split_and!; try done.
  - by rewrite app_nil_r.
  - apply elem_of_app. right. apply list_elem_of_here.
Qed.

Lemma new_session_is_selected_witness :
  let p' := on_new_session (HttpResponse 200 (SessionKey "n1"))
              (HttpRaised (Exn "ConnectError" "")) initial_page in
  value (session_dropdown p') = Some "n1"
  /\ ("n1" ∈ selectable p')
  /\ selectable p' = ["default"; "n1"]
  /\ choices_state p' = selectable p'
  /\ chat_box p' = [].
Proof.
  apply (new_session_is_selected (HttpResponse 200 (SessionKey "n1"))
           (HttpRaised (Exn "ConnectError" "")) initial_page "n1").
  reflexivity.
Defined.

(** X21. The delete handler removes the selected session from the local
    list whatever status the backend answers with: when other sessions
    remain, they are what is listed afterwards, in their order, the first of
    them is selected, the deleted id is gone, and the chatbot is emptied;
    only the status line tells a refused deletion ("Delete failed: ...")
    from an accepted one ("Deleted."). *)
Theorem deletion_is_local (code : Z) (text : string)
    (cr : http_reply session_body) (s : string) (p : page) :
  PyStr.strip s <> "" ->
  value (session_dropdown p) = Some s ->
  let remaining := filter (fun c => c <> PyStr.strip s) (choices_state p) in
  remaining <> [] ->
  let p' := on_delete (HttpResponse code text) cr p in
  selectable p' = remaining
  /\ choices_state p' = remaining
  /\ (PyStr.strip s ∉ selectable p')
  /\ value (session_dropdown p') = head remaining
  /\ chat_box p' = []
  /\ status_text p'
     = (if (code =? 200)%Z then "Deleted." else "Delete failed: " ++ text).
Proof.
  intros Hs Hv remaining Hrem p'. subst p'.
  unfold on_delete, handle_session_deletion. rewrite Hv.
  change (default "" (Some s)) with s.
  apply truthy_true_iff in Hs. rewrite Hs. cbn [negb]. fold remaining.
  rewrite bool_decide_eq_false_2 by done.
  assert (Hnot : PyStr.strip s ∉ remaining).
  { unfold remaining. rewrite list_elem_of_filter. by intros [? _]. }
  destruct remaining as [|c l] eqn:Hr; [done|].
  unfold selectable, dispatch.
  cbn [out_dropdown out_choices out_chat out_status apply_update
       session_dropdown choices value choices_state chat_box status_text head].
  by split_and!.
Qed.

Lemma deletion_is_local_witness :
  let p := Page (Dropdown ["s1"; "s2"] (Some "s1")) ["s1"; "s2"] [("q", "a")] "" in
  let p' := on_delete (HttpResponse 500 "boom") (HttpRaised (Exn "E" "")) p in
  selectable p' = ["s2"]
  /\ choices_state p' = ["s2"]
  /\ ("s1" ∉ selectable p')
  /\ value (session_dropdown p') = Some "s2"
  /\ chat_box p' = []
  /\ status_text p' = "Delete failed: boom".
Proof.
  apply (deletion_is_local 500 "boom" (HttpRaised (Exn "E" "")) "s1"
           (Page (Dropdown ["s1"; "s2"] (Some "s1")) ["s1"; "s2"] [("q", "a")] ""));
    [by vm_compute | reflexivity | by vm_compute].
Defined.

End Sessions.

(** * The client and the orchestrator together *)

Section EndToEnd.

Import History Backend UI Wire.

Lemma lstrip_head (s : string) :
  PyStr.lstrip s = ""
  \/ exists c r, PyStr.lstrip s = String c r /\ PyStr.isspace c = false.
Proof.
  induction s as [|c s IH]; cbn [PyStr.lstrip]; [by left|].
  destruct (PyStr.isspace c) eqn:Hc; [exact IH | right; eauto].
Qed.

Lemma rstrip_head (c : ascii) (r : string) :
  PyStr.isspace c = false -> exists r', PyStr.rstrip (String c r) = String c r'.
Proof.
  intros Hc. cbn [PyStr.rstrip]. rewrite Hc.
  destruct (PyStr.rstrip r); eauto.
Qed.

Lemma rstrip_idemp (s : string) : PyStr.rstrip (PyStr.rstrip s) = PyStr.rstrip s.
Proof.
  induction s as [|c s IH]; [done|].
  cbn [PyStr.rstrip]. destruct (PyStr.rstrip s) as [|c' r] eqn:Hr.
  - destruct (PyStr.isspace c) eqn:Hc; [done|].
    cbn [PyStr.rstrip]. by rewrite Hc.
  - cbn [PyStr.rstrip]. cbn [PyStr.rstrip] in IH.
    destruct (match PyStr.rstrip r with
              | "" => if PyStr.isspace c' then "" else String c' ""
              | String _ _ as r0 => String c' r0
              end) as [|c'' r''] eqn:Hm; [discriminate|by rewrite IH].
Qed.

(** Trimming a trimmed text changes nothing. *)
Lemma strip_idemp (s : string) : PyStr.strip (PyStr.strip s) = PyStr.strip s.
Proof.
  unfold PyStr.strip.
  assert (H : PyStr.lstrip (PyStr.rstrip (PyStr.lstrip s))
              = PyStr.rstrip (PyStr.lstrip s)).
  { destruct (lstrip_head s) as [->|(c & r & -> & Hc)]; [done|].
    destruct (rstrip_head c r Hc) as [r' ->]. cbn [PyStr.lstrip]. by rewrite Hc. }
  by rewrite H, rstrip_idemp.
Qed.

Lemma to_json_entries (turns : chat_pairs) :
  to_json <$> entries_of_turns turns = log_of_turns turns.
Proof.
  unfold entries_of_turns, log_of_turns.
  induction turns as [|[u a] turns IH]; [done|].
  cbn [fmap list_fmap concat app]. cbn [fmap] in IH. by rewrite IH.
Qed.

Lemma entries_of_turns_snoc (turns : chat_pairs) (u a : string) :
  entries_of_turns (turns ++ [(u, a)])
  = (entries_of_turns turns ++ [MsgOut "user" u; MsgOut "assistant" a])%list.
Proof.
  unfold entries_of_turns. rewrite fmap_app, concat_app.
  cbn [fmap list_fmap concat fst snd]. by rewrite app_nil_r.
Qed.

(** X22. A deletion keeps the client and the server in step: if the
    client's list of choices is the server's list of rows and some other
    session remains, then after the client's delete handler has run and the
    server has handled [DELETE /session/{id}] for the trimmed id, the
    sessions the client offers are exactly the ones [GET /sessions] returns,
    in the same order. *)
Theorem deletion_keeps_client_and_server_in_step (s text : string)
    (cr : http_reply session_body) (p : page) (st : state) :
  PyStr.strip s <> "" ->
  value (session_dropdown p) = Some s ->
  choices_state p = chat_sessions st ->
  filter (fun c => c <> PyStr.strip s) (chat_sessions st) <> [] ->
  exists st1,
    clear_session_history (PyStr.strip s) st
    = Some (Cleared "cleared" (PyStr.strip s), st1)
    /\ selectable (on_delete (HttpResponse 200 text) cr p)
       = get_available_sessions (serve_sessions st1).
Proof.
  intros Hs Hv Hsame Hrem. eexists. split; [apply clear_session_history_eq|].
  unfold serve_sessions, list_all_sessions, get_available_sessions.
  cbn [fst chat_sessions set_chat_sessions set_STORE Z.eqb Pos.eqb].
  unfold on_delete, handle_session_deletion. rewrite Hv, Hsame.
  change (default "" (Some s)) with s.
  apply truthy_true_iff in Hs. rewrite Hs. cbn [negb].
  rewrite bool_decide_eq_false_2 by done.
  by destruct (filter _ _).
Qed.

Lemma deletion_keeps_client_and_server_in_step_witness :
  let st := State ["s1"; "s2"; "s3"] ∅ 0 [] in
  let p := Page (Dropdown ["s1"; "s2"; "s3"] (Some "s2")) ["s1"; "s2"; "s3"] [] "" in
  exists st1,
    clear_session_history "s2" st = Some (Cleared "cleared" "s2", st1)
    /\ selectable (on_delete (HttpResponse 200 "") (HttpRaised (Exn "E" "")) p)
       = get_available_sessions (serve_sessions st1).
Proof.
  apply (deletion_keeps_client_and_server_in_step "s2" ""
           (HttpRaised (Exn "E" ""))
           (Page (Dropdown ["s1"; "s2"; "s3"] (Some "s2")) ["s1"; "s2"; "s3"] [] "")
           (State ["s1"; "s2"; "s3"] ∅ 0 []));
    [by vm_compute | reflexivity | reflexivity | by vm_compute].
Defined.

(** X23. Reloading a session shows what the live display ended on. Let the
    session's history be whole turns, shown as such in the chatbot; the user
    sends a message that is not blank, the provider's stream ends normally,
    and the body reaches the client in at least one chunk. Then the message
    the server records is the trimmed message of the user's bubble, and the
    conversation [load_chat_history] builds from the history endpoint
    afterwards is the last chatbot value of the send handler: the turns
    followed by the message and the whole reply. *)
Theorem reload_matches_live_display (c : chain) (st : state)
    (post : string -> string -> stream_reply) (s : string)
    (user_msg : option string) (turns : chat_pairs) (fs : list string) :
  let sid := PyStr.strip s in
  let msg := PyStr.strip (default "" user_msg) in
  let exchange :=
    post_chat FakeHistoryWrapper c {| session_id := sid; user_message := msg |} st in
  sid <> "" ->
  msg <> "" ->
  read_history sid st = entries_of_turns turns ->
  failure (c (ChatInputs SYSTEM_PROMPT msg) sid) = None ->
  post sid msg = StreamResponse 200 (inr "") fs None ->
  fs <> [] ->
  PyStr.join fs = body_text exchange.1 ->
  let shown_last :=
    last (shown (handle_message_send post (Some s) user_msg (Some turns))) in
  let reloaded := load_chat_history (serve_history exchange.2) (Some s) in
  shown_last = Some (SetTo reloaded)
  /\ reloaded = (turns ++ [(msg, PyStr.join fs)])%list.
Proof.
  intros sid msg exchange Hsid Hmsg Hold Hok Hpost Hfs Hbody shown_last reloaded.
  assert (Hs : s <> "") by (intros ->; by apply Hsid).
  (* the server side *)
  assert (Hex : exchange
                = (let r := gen (FakeHistoryWrapper c (ChatInputs SYSTEM_PROMPT msg)
                                   sid (note_build st)) in
                   (Streamed 200 r, final r))).
  { unfold exchange. rewrite chat_accepts;
      cbn [user_message session_id]; unfold msg, sid; rewrite !strip_idemp; done. }
  cbv zeta in Hex.
  destruct (relayed_by_gen c (ChatInputs SYSTEM_PROMPT msg) sid (note_build st))
    as (Hfr & _ & _).
  assert (Htext : PyStr.join fs
                  = PyStr.join (chunks (c (ChatInputs SYSTEM_PROMPT msg) sid))).
  { rewrite Hbody, Hex. cbn [fst body_text]. unfold fragments, gen.
    destruct (outcome _) eqn:Hout; cbn [yields].
    - pose proof (relayed_by_gen c (ChatInputs SYSTEM_PROMPT msg) sid
                    (note_build st)) as (_ & _ & Ho).
      rewrite Hok in Ho. congruence.
    - by rewrite Hfr, join_filter_nonempty. }
  assert (Hlog : read_history sid exchange.2
                 = entries_of_turns (turns ++ [(msg, PyStr.join fs)])).
  { rewrite Hex. cbn [snd].
    rewrite final_gen, read_history_eq, log_after_stream, Hok.
    rewrite history_of_note_build, fmap_app, <- read_history_eq, Hold.
    by rewrite entries_of_turns_snoc, Htext. }
  (* the reload *)
  assert (Hre : reloaded = (turns ++ [(msg, PyStr.join fs)])%list).
  { unfold reloaded, load_chat_history.
    change (default "" (Some s)) with s. fold sid.
    apply truthy_true_iff in Hsid. rewrite Hsid. cbn [negb].
    unfold serve_history. cbn [is_success Z.leb Z.compare Pos.compare
                               Pos.compare_cont andb default from_option id].
    fold (read_history sid exchange.2).
    rewrite Hlog, to_json_entries. unfold to_chat_pairs.
    by rewrite pair_loop_turns. }
  split; [|exact Hre].
  (* the live display *)
  unfold shown_last. rewrite handle_message_send_eq; fold msg; [|exact Hmsg].
  change (default "" (Some s)) with s.
  assert (Hor : PyStr.or_default s "default" = s).
  { unfold PyStr.or_default. apply truthy_true_iff in Hs. by rewrite Hs. }
  rewrite Hor. fold sid.
  unfold get_streaming_response.
  assert (Hor' : PyStr.or_default sid "default" = sid).
  { unfold PyStr.or_default. apply truthy_true_iff in Hsid. by rewrite Hsid. }
  rewrite Hor', Hpost. cbn [is_success Z.leb Z.compare Pos.compare
                             Pos.compare_cont andb shown].
  rewrite fmap_last, last_combine_loop, Hre.
  destruct fs; [done|]. reflexivity.
Qed.

Lemma reload_matches_live_display_witness :
  let post : string -> string -> stream_reply :=
    fun _ _ => StreamResponse 200 (inr "") ["HELLO"; ": Hi"] None in
  let exchange :=
    post_chat FakeHistoryWrapper FakeStreamChain
      {| session_id := "abc"; user_message := "Hi" |} fresh in
  let shown_last :=
    last (shown (handle_message_send post (Some " abc ") (Some " Hi ") (Some []))) in
  let reloaded := load_chat_history (serve_history exchange.2) (Some " abc ") in
  shown_last = Some (SetTo reloaded)
  /\ reloaded = [("Hi", "HELLO: Hi")].
Proof.
  apply (reload_matches_live_display FakeStreamChain fresh
           (fun _ _ => StreamResponse 200 (inr "") ["HELLO"; ": Hi"] None)
           " abc " (Some " Hi ") [] ["HELLO"; ": Hi"]);
    [by vm_compute | by vm_compute | by vm_compute | reflexivity | reflexivity
    | discriminate | by vm_compute].
Defined.

End EndToEnd.
